(** * asleep / get_sleep.py: sleep-window pipeline

    A shallow embedding of [src/asleep/get_sleep.py].  NumPy arrays are lists,
    timestamps are integers (any totally ordered clock value), Python values
    that may be [None] are [option Z], raised exceptions are the [Raise]
    branch of [result]. *)

From Stdlib Require Import ZArith QArith String Ascii Lia Sorted.
From Stdlib Require Import DecimalString DecimalN.
From stdpp Require Import base list.

Local Open Scope Z_scope.

(** ** Exceptions and results *)

Inductive error : Type :=
  | ValueError
  | IndexError
  | TypeError.

Inductive result (A : Type) : Type :=
  | Ok (a : A)
  | Raise (e : error).

Arguments Ok {A} a.
Arguments Raise {A} e.

#[global] Instance result_bind : MBind result :=
  fun A B (k : A -> result B) (r : result A) =>
    match r with
    | Ok a => k a
    | Raise e => Raise e
    end.

(** ** The NumPy operations the file uses *)

Module np.

(** [np.sum(mask)]: number of [True] entries. *)
Fixpoint count_nonzero (mask : list bool) : nat :=
  match mask with
  | [] => 0%nat
  | b :: mask' => ((if b then 1 else 0) + count_nonzero mask')%nat
  end.

(** The entries of [a] at the [True] positions of [mask], in array order. *)
Fixpoint take_mask {A : Type} (mask : list bool) (a : list A) : list A :=
  match mask, a with
  | b :: mask', x :: a' =>
      if b then x :: take_mask mask' a' else take_mask mask' a'
  | _, _ => []
  end.

(** [a[mask]]: boolean-array indexing; the mask must have the length of the
    array, NumPy raises IndexError otherwise. *)
Definition getitem_mask {A : Type} (a : list A) (mask : list bool)
  : result (list A) :=
  if decide (length mask = length a) then Ok (take_mask mask a)
  else Raise IndexError.

(** Writes the values of [v], in order, to the [True] positions of [mask]. *)
Fixpoint put_mask {A : Type} (mask : list bool) (a v : list A) : list A :=
  match mask, a with
  | b :: mask', x :: a' =>
      if b then
        match v with
        | y :: v' => y :: put_mask mask' a' v'
        | [] => x :: put_mask mask' a' []
        end
      else x :: put_mask mask' a' v
  | _, _ => a
  end.

(** Writes the one value [y] to every [True] position of [mask]. *)
Fixpoint fill_mask {A : Type} (mask : list bool) (a : list A) (y : A)
  : list A :=
  match mask, a with
  | b :: mask', x :: a' => (if b then y else x) :: fill_mask mask' a' y
  | _, _ => a
  end.

(** [a[mask] = v] for one-dimensional [a], [mask] and [v].  A value array of
    length one is broadcast to every selected position, whatever their
    number; any other length must equal the number of selected positions,
    NumPy raises ValueError otherwise ("cannot assign k input values to the
    n output values where the mask is true"). *)
Definition setitem_mask {A : Type} (a : list A) (mask : list bool)
    (v : list A) : result (list A) :=
  if decide (length mask = length a) then
    match v with
    | [y] => Ok (fill_mask mask a y)
    | _ =>
        if decide (length v = count_nonzero mask) then Ok (put_mask mask a v)
        else Raise ValueError
    end
  else Raise IndexError.

(** [np.vectorize(d.get)(a)] without [otypes]: a size-0 input raises
    ValueError; the output type is taken from the first output, so when that
    one is a number a later [None] cannot be converted and raises TypeError;
    when the first output is [None] the result is an object array. *)
Definition vectorize_get (get : Z -> option Z) (a : list Z)
  : result (list (option Z)) :=
  match a with
  | [] => Raise ValueError
  | x :: _ =>
      let outputs := map get a in
      match get x with
      | None => Ok outputs
      | Some _ =>
          if forallb (fun o => bool_decide (is_Some o)) outputs then Ok outputs
          else Raise TypeError
      end
  end.

End np.

(** ** Module constants *)

Definition NON_WEAR_THRESHOLD : Z := 3.
Definition NON_WEAR_PREDICTION_FLAG : Z := -1.

(** ** Tables *)

(** A row of [all_sleep_wins_df] before the [is_longest_block] column is
    added.  [wear_duration_H] is a number of hours, carried as a rational;
    no modelled code computes with it. *)
Record sleep_win : Type := mk_sleep_win {
  start : Z;
  end_ : Z;
  interval_start : Z;
  interval_end : Z;
  wear_duration_H : Q
}.

(** [(times >= start_t) & (times < end_t)] *)
Definition time_filter (times : list Z) (start_t end_t : Z) : list bool :=
  map (fun t => (start_t <=? t) && (t <? end_t)) times.

(** [df.iterrows()] on a frame with the default RangeIndex. *)
Definition iterrows {R : Type} (df : list R) : list (nat * R) :=
  zip (seq 0 (length df)) df.

(** ** get_master_df *)

Fixpoint get_master_df_loop {A : Type} (rows : list (nat * sleep_win))
    (times : list Z) (acc_array : list A)
    (master_acc : list A) (master_npids : list Z)
  : result (list A * list Z) :=
  match rows with
  | [] => Ok (master_acc, master_npids)
  | (index, row) :: rows' =>
      let start_t := start row in
      let end_t := end_ row in
      let time_filter := time_filter times start_t end_t in
      current_day_acc ← np.getitem_mask acc_array time_filter;
      let day_pid :=
        replicate (np.count_nonzero time_filter) (Z.of_nat index) in
      if decide (length master_npids = 0%nat) then
        get_master_df_loop rows' times acc_array current_day_acc day_pid
      else
        get_master_df_loop rows' times acc_array
          (master_acc ++ current_day_acc) (master_npids ++ day_pid)
  end.

Definition get_master_df {A : Type} (block_time_df : list sleep_win)
    (times : list Z) (acc_array : list A) : result (list A * list Z) :=
  get_master_df_loop (iterrows block_time_df) times acc_array [] [].

(** The epochs of a block, as the specification describes them: timestamp in
    [[start, end)]. *)
Definition in_block (row : sleep_win) (t : Z) : Prop :=
  start row <= t < end_ row.

#[global] Instance in_block_dec row t : Decision (in_block row t).
Proof. unfold in_block. apply _. Defined.

Definition in_blockb (row : sleep_win) (t : Z) : bool :=
  (start row <=? t) && (t <? end_ row).

(** ** The block-to-epoch mapping built by get_master_df *)

(** The epoch data of one block: the entries of [acc_array] whose timestamp
    lies in the block, in series order. *)
Definition block_epochs {A : Type} (times : list Z) (acc_array : list A)
    (row : sleep_win) : list A :=
  (filter (fun p => in_block row p.1) (zip times acc_array)).*2.

(** The ids of one block: its row index, once per epoch of the block. *)
Definition block_ids (times : list Z) (index : nat) (row : sleep_win)
  : list Z :=
  replicate (length (filter (in_block row) times)) (Z.of_nat index).

Definition demo_win (s e : Z) : sleep_win := mk_sleep_win s e 0 86400 (24 # 1).

(** ** Command-line configuration *)

(** The namespace returned by [parser.parse_args()]: one field per argument
    declared in main ([outdir] as it is after line 302). *)
Record Args : Type := mk_Args {
  filepath : string;
  outdir : string;
  force_download : bool;
  force_run : bool;
  remove_intermediate_files : bool;
  report_light_and_temp : bool;
  pytorch_device : string;
  model_weight_path : string;
  local_repo_path : string;
  min_wear : Z;
  time_shift : string
}.

(** ** get_sleep_windows *)

(** A row of [my_df]: the columns [time], [label] and [is_wear]. *)
Record epoch : Type := mk_epoch {
  time : Z;
  label : option Z;
  is_wear : bool
}.

(** [binary_y != NON_WEAR_PREDICTION_FLAG], elementwise. *)
Definition is_wear_of (binary_y : list (option Z)) : list bool :=
  map (fun y => bool_decide (y <> Some NON_WEAR_PREDICTION_FLAG)) binary_y.

(** [pd.DataFrame(my_data)] for the three columns of [my_data]: they must
    have one length, pandas raises ValueError otherwise. *)
Definition make_my_df (time : list Z) (label : list (option Z))
    (is_wear : list bool) : result (list epoch) :=
  if decide (length time = length label /\ length label = length is_wear)
  then
    Ok (zip_with (fun t yw => mk_epoch t yw.1 yw.2) time (zip label is_wear))
  else Raise ValueError.

(** [pd.DataFrame(all_sleep_wins, columns=['start', 'end'])] followed by the
    assignment of the three list columns, each of which must have as many
    entries as the frame has rows. *)
Definition make_all_sleep_wins_df (all_sleep_wins : list (Z * Z))
    (interval_start interval_end : list Z) (wear_time : list Q)
  : result (list sleep_win) :=
  if decide (length interval_start = length all_sleep_wins
             /\ length interval_end = length all_sleep_wins
             /\ length wear_time = length all_sleep_wins) then
    Ok (zip_with (fun w ie => mk_sleep_win w.1.1 w.1.2 w.2 ie.1 ie.2)
          (zip all_sleep_wins interval_start) (zip interval_end wear_time))
  else Raise ValueError.

(** What get_sleep_windows returns. *)
Record sleep_windows_result (A : Type) : Type := mk_sleep_windows_result {
  binary_y : list (option Z);
  all_sleep_wins_df : list sleep_win;
  sleep_wins_long_per_day_df : list (Z * Z);
  master_acc : list A;
  master_npids : list Z
}.

Arguments mk_sleep_windows_result {A}.
Arguments binary_y {A}.
Arguments all_sleep_wins_df {A}.
Arguments sleep_wins_long_per_day_df {A}.
Arguments master_acc {A}.
Arguments master_npids {A}.

(** [np.ones(len(times)) * NON_WEAR_PREDICTION_FLAG] followed by
    [sleep_prediction[~non_wear] = window_pred] (lines 171 and 184). *)
Definition fresh_sleep_prediction (times : list Z) (non_wear : list bool)
    (window_pred : list Z) : result (list Z) :=
  let sleep_prediction :=
    replicate (length times) (1 * NON_WEAR_PREDICTION_FLAG) in
  np.setitem_mask sleep_prediction (map negb non_wear) window_pred.

Section get_sleep_windows.

(** One epoch of model input (a 3 x 900 window). *)
Context {A : Type}.

(** [sleep_window_detector.predict], the coarse classifier. *)
Variable predict : list A -> list Z.

(** [SLEEPNET_LABELS.get], the table of asleep.macros. *)
Variable SLEEPNET_LABELS : Z -> option Z.

(** The functions of asleep.sleep_windows, with the arguments the call sites
    pass. *)
Context {counter_t : Type}.
Variable find_sleep_block_duration : list epoch -> counter_t.
Variable find_valid_sleep_blocks : counter_t -> Z -> list nat.
Variable find_gaps2fill : list nat -> Z -> counter_t -> list nat.
Variable fill_gaps : list epoch -> counter_t -> list nat -> list epoch.
Variable time_series2sleep_blocks :
  list epoch -> list (Z * Z) * list (Z * Z) * list Z * list Z * list Q.

(** Lines 199-206, "non-wear fix for false positive"; [args] is in scope
    there. *)
Definition non_wear_fix (args : Args) (my_df : list epoch) : list epoch :=
  let counter := find_sleep_block_duration my_df in
  let epoch_length := 30 in
  let valid_sleep_block_idxes :=
    find_valid_sleep_blocks counter epoch_length in
  let gap2fill :=
    find_gaps2fill valid_sleep_block_idxes epoch_length counter in
  fill_gaps my_df counter gap2fill.

(** [ssl_sleep] is the content of the file ssl_sleep.npy of the directory
    [args.outdir] when it exists (line 170), and [predict] the detector
    that load_model returns for [args.force_download] (lines 176-180):
    [get_sleep_windows_on_disk] below makes the two reads explicit. *)
Definition get_sleep_windows (data2model : list A) (times : list Z)
    (non_wear : list bool) (args : Args) (ssl_sleep : option (list Z))
  : result (sleep_windows_result A) :=
  let original_data2model := data2model in
  data2model ← np.getitem_mask data2model (map negb non_wear);
  sleep_prediction ←
    match ssl_sleep with
    | Some saved =>
        if force_run args then
          fresh_sleep_prediction times non_wear (predict data2model)
        else Ok saved
    | None => fresh_sleep_prediction times non_wear (predict data2model)
    end;
  binary_y ← np.vectorize_get SLEEPNET_LABELS sleep_prediction;
  my_df ← make_my_df times binary_y (is_wear_of binary_y);
  let my_df := non_wear_fix args my_df in
  let '(all_sleep_wins, sleep_wins_long_per_day, interval_start,
        interval_end, wear_time) := time_series2sleep_blocks my_df in
  all_sleep_wins_df ←
    make_all_sleep_wins_df all_sleep_wins interval_start interval_end
      wear_time;
  let sleep_wins_long_per_day_df := sleep_wins_long_per_day in
  '(master_acc, master_npids) ←
    get_master_df all_sleep_wins_df times original_data2model;
  Ok (mk_sleep_windows_result binary_y all_sleep_wins_df
        sleep_wins_long_per_day_df master_acc master_npids).

End get_sleep_windows.

(** ** main, from step 2 on *)

(** [df.iloc[i]] *)
Definition iloc {R : Type} (df : list R) (i : nat) : result R :=
  match df !! i with
  | Some row => Ok row
  | None => Raise IndexError
  end.

(** Lines 359-371: the refined predictions are written over the coarse
    labels, block by block.  [sleepnet_output] is the array [binary_y]
    itself, updated in place. *)
Fixpoint fill_sleepnet_predictions (block_ids : list nat)
    (all_sleep_wins_df : list sleep_win) (times : list Z)
    (y_pred test_pids : list Z) (sleepnet_output : list (option Z))
  : result (list (option Z)) :=
  match block_ids with
  | [] => Ok sleepnet_output
  | block_id :: block_ids' =>
      row ← iloc all_sleep_wins_df block_id;
      let start_t := start row in
      let end_t := end_ row in
      let time_filter := time_filter times start_t end_t in
      sleepnet_pred ←
        np.getitem_mask y_pred
          (map (fun pid => pid =? Z.of_nat block_id) test_pids);
      sleepnet_output ←
        np.setitem_mask sleepnet_output time_filter (map Some sleepnet_pred);
      fill_sleepnet_predictions block_ids' all_sleep_wins_df times
        y_pred test_pids sleepnet_output
  end.

(** The loop over [range(len(all_sleep_wins_df))]. *)
Definition stitch (all_sleep_wins_df : list sleep_win) (times : list Z)
    (y_pred test_pids : list Z) (binary_y : list (option Z))
  : result (list (option Z)) :=
  fill_sleepnet_predictions (seq 0 (length all_sleep_wins_df))
    all_sleep_wins_df times y_pred test_pids binary_y.

(** Lines 416-421: the column [is_longest_block] is set to False, then to
    True on every row whose [(start, end)] equals a row of the per-night
    table. *)
Definition mark_row (long : Z * Z) (r : sleep_win * bool) : sleep_win * bool :=
  if (start r.1 =? long.1) && (end_ r.1 =? long.2) then (r.1, true) else r.

Definition mark_longest (all_sleep_wins_df : list sleep_win)
    (sleep_wins_long_per_day_df : list (Z * Z)) : list (sleep_win * bool) :=
  foldl (fun df long => map (mark_row long) df)
    (map (fun r => (r, false)) all_sleep_wins_df)
    sleep_wins_long_per_day_df.

(** What main does that can be seen from outside, from step 2 on: what it
    prints (the format string, for formatted messages), the second model it
    runs, the files it writes and the summaries it asks for.  The prints and
    the cache file of get_sleep_windows are not recorded. *)
Inductive event : Type :=
  | print (msg : string)
  | print_head (frame : string)
  | start_sleep_net_call
  | to_csv (file : string)
  | generate_sleep_parameters_call
  | summarize_daily_sleep_call (min_wear : Z).

(** How main ends: it returns, with the [raw_label] column written to
    predictions.csv and the table written to sleep_block.csv; it leaves
    through [exit()]; or an exception escapes. *)
Inductive outcome : Type :=
  | Returned (raw_label : list (option Z))
             (sleep_block : list (sleep_win * bool))
  | Exited
  | Raised (e : error).

Definition no_sleep_messages : list event :=
  [ print "No sleep windows >30 mins detected. Exiting...";
    print "Non-wear time has been written to %s";
    print "Current sleep classification has been written to %s" ].

Definition report_messages : list event :=
  [ print "predictions_df shape: {}";
    print_head "predictions_df";
    print "Predictions saved to: {}";
    to_csv "predictions.csv";
    print_head "all_sleep_wins_df";
    print "Sleep block saved to: {}";
    to_csv "sleep_block.csv";
    generate_sleep_parameters_call ].

Section main.

Context {A : Type}.
Variable predict : list A -> list Z.
Variable SLEEPNET_LABELS : Z -> option Z.
Context {counter_t : Type}.
Variable find_sleep_block_duration : list epoch -> counter_t.
Variable find_valid_sleep_blocks : counter_t -> Z -> list nat.
Variable find_gaps2fill : list nat -> Z -> counter_t -> list nat.
Variable fill_gaps : list epoch -> counter_t -> list nat -> list epoch.
Variable time_series2sleep_blocks :
  list epoch -> list (Z * Z) * list (Z * Z) * list Z * list Z * list Q.

(** [start_sleep_net(master_acc, master_npids, outdir, model_weight_path,
    local_repo_path, device_id)], the second model: it returns [y_pred] and
    [test_pids]. *)
Variable start_sleep_net :
  list A -> list Z -> string -> string -> string -> string
  -> list Z * list Z.

(** Lines 344-441.  The user-facing label columns of predictions.csv are
    derived from [raw_label] by the tables of asleep.macros and the optional
    temperature and light columns come from step 1.2; neither is modelled.
    Step 1 (lines 294-342: the time shift, the parsing of the recording and
    the transformation) comes before and is described by [time_shift_of]
    and [main_transform].  Of the steps after the stitching loop only the
    normal course is given: an exception raised by lines 376-435 or by a
    collaborator is outside this model, as is what get_sleep_windows prints
    and saves itself ([ssl_sleep_after]). *)
Definition main (args : Args) (data2model : list A) (times : list Z)
    (non_wear : list bool) (ssl_sleep : option (list Z))
  : list event * outcome :=
  match get_sleep_windows predict SLEEPNET_LABELS find_sleep_block_duration
          find_valid_sleep_blocks find_gaps2fill fill_gaps
          time_series2sleep_blocks data2model times non_wear args ssl_sleep
  with
  | Raise e => ([], Raised e)
  | Ok r =>
      if decide (length (master_npids r) <= 0)%nat then
        (no_sleep_messages, Exited)
      else
        let '(y_pred, test_pids) :=
          start_sleep_net (master_acc r) (master_npids r) (outdir args)
            (model_weight_path args) (local_repo_path args)
            (pytorch_device args) in
        match stitch (all_sleep_wins_df r) times y_pred test_pids
                (binary_y r) with
        | Raise e => ([start_sleep_net_call], Raised e)
        | Ok sleepnet_output =>
            let sleep_block :=
              mark_longest (all_sleep_wins_df r)
                (sleep_wins_long_per_day_df r) in
            (start_sleep_net_call :: report_messages
               ++ [ summarize_daily_sleep_call (min_wear args);
                    print "Processing completed successfully!";
                    print "Final memory cleanup..." ],
             Returned sleepnet_output sleep_block)
        end
  end.

End main.

(** ** asleep.sleep_windows *)

Module sw.

(** The module asleep.sleep_windows (imported as [sw]) is not among the
    sources.  Every definition of this module is modelled from sections 3
    and 4.1 to 4.4 of the specification: the Block Extractor, the Block
    Validator, the Gap Merger and the longest-block selection of the Night
    Assembler. *)

(** Modelled from the spec: the binary label of sleep (the labels of
    asleep.macros are missing). *)
Definition SLEEP : Z := 1.

(** Modelled from the spec: a Block (3), a maximal run of consecutive
    epochs with one (label, wear flag).  Its start is the end of the blocks
    before it. *)
Record block : Type := mk_block {
  block_label : option Z;
  block_is_wear : bool;
  block_count : nat
}.

(** Modelled from the spec: the epoch has the (label, wear flag) of the
    block (4.1). *)
Definition same_state (e : epoch) (b : block) : bool :=
  bool_decide (label e = block_label b)
  && bool_decide (is_wear e = block_is_wear b).

(** Modelled from the spec: sw.find_sleep_block_duration, the Block
    Extractor (4.1); a new block starts whenever (label, wear flag)
    differs from the previous epoch. *)
Fixpoint find_sleep_block_duration (my_df : list epoch) : list block :=
  match my_df with
  | [] => []
  | e :: my_df' =>
      match find_sleep_block_duration my_df' with
      | b :: counter =>
          if same_state e b then
            mk_block (label e) (is_wear e) (S (block_count b)) :: counter
          else mk_block (label e) (is_wear e) 1 :: b :: counter
      | [] => [mk_block (label e) (is_wear e) 1]
      end
  end.

(** Modelled from the spec: the duration of a block (4.1), epoch count
    times epoch duration. *)
Definition duration (epoch_length : Z) (b : block) : Z :=
  Z.of_nat (block_count b) * epoch_length.

(** Modelled from the spec: the block is labelled sleep. *)
Definition is_sleep (b : block) : bool :=
  bool_decide (block_label b = Some SLEEP).

(** Modelled from the spec: the row indices of the blocks that satisfy
    [keep]. *)
Definition block_idxes (keep : nat -> block -> bool) (counter : list block)
  : list nat :=
  List.filter
    (fun i => match counter !! i with Some b => keep i b | None => false end)
    (seq 0 (length counter)).

(** Modelled from the spec: sw.find_valid_sleep_blocks with its threshold
    explicit, the Block Validator (4.2): the sleep-labelled, worn blocks
    whose duration exceeds the minimum. *)
Definition find_valid_sleep_blocks_with (min_duration : Z)
    (counter : list block) (epoch_length : Z) : list nat :=
  block_idxes
    (fun _ b => is_sleep b && block_is_wear b
                && (min_duration <? duration epoch_length b))
    counter.

(** Modelled from the spec: a Gap (3, 4.3), a block that is not sleep or
    not worn; it is a candidate when it lies strictly between two valid
    blocks. *)
Definition is_gap (b : block) : bool :=
  negb (is_sleep b) || negb (block_is_wear b).

(** Modelled from the spec: block [j] lies strictly between two valid
    blocks (4.3). *)
Definition between_valid (valid_sleep_block_idxes : list nat) (j : nat)
  : bool :=
  existsb (fun v => (v <? j)%nat) valid_sleep_block_idxes
  && existsb (fun v => (j <? v)%nat) valid_sleep_block_idxes.

(** Modelled from the spec: sw.find_gaps2fill with its threshold explicit,
    the selection of the Gap Merger (4.3): the gaps whose duration is below
    the threshold. *)
Definition find_gaps2fill_with (gap_threshold : Z)
    (valid_sleep_block_idxes : list nat) (epoch_length : Z)
    (counter : list block) : list nat :=
  block_idxes
    (fun j b => is_gap b && between_valid valid_sleep_block_idxes j
                && (duration epoch_length b <? gap_threshold))
    counter.

(** Modelled from the spec: the index of the first epoch of block [j]
    (3: blocks cover the series without gaps). *)
Definition block_start (counter : list block) (j : nat) : nat :=
  sum_list (map block_count (take j counter)).

(** Modelled from the spec: epoch [i] lies in block [j], by the boundaries
    of [counter]. *)
Definition in_gap (counter : list block) (j i : nat) : bool :=
  match counter !! j with
  | Some b =>
      (block_start counter j <=? i)%nat
      && (i <? block_start counter j + block_count b)%nat
  | None => false
  end.

(** Modelled from the spec: filling (4.3) relabels to sleep and keeps the
    wear flag. *)
Definition set_sleep (e : epoch) : epoch :=
  mk_epoch (time e) (Some SLEEP) (is_wear e).

(** Modelled from the spec: one gap is filled (4.3). *)
Definition fill_gap (counter : list block) (my_df : list epoch) (j : nat)
  : list epoch :=
  imap (fun i e => if in_gap counter j i then set_sleep e else e) my_df.

(** Modelled from the spec: sw.fill_gaps, the filling of the Gap Merger
    (4.3); the gaps are filled one after the other, each by the boundaries
    of the original blocks. *)
Definition fill_gaps (my_df : list epoch) (counter : list block)
    (gap2fill : list nat) : list epoch :=
  foldl (fill_gap counter) my_df gap2fill.

(** Modelled from the spec: the relabelling of 4.3 as one pass over the
    series; an epoch becomes sleep when it lies in one of the gaps. *)
Definition fill_single_pass (my_df : list epoch) (counter : list block)
    (gap2fill : list nat) : list epoch :=
  imap (fun i e =>
          if existsb (fun j => in_gap counter j i) gap2fill then set_sleep e
          else e)
       my_df.

(** Modelled from the spec: the Gap Merger (4.3) on top of the Block
    Extractor and the Block Validator, with the two thresholds explicit. *)
Definition merge_gaps (min_duration gap_threshold epoch_length : Z)
    (my_df : list epoch) : list epoch :=
  let counter := find_sleep_block_duration my_df in
  let valid_sleep_block_idxes :=
    find_valid_sleep_blocks_with min_duration counter epoch_length in
  fill_gaps my_df counter
    (find_gaps2fill_with gap_threshold valid_sleep_block_idxes epoch_length
       counter).

(** Modelled from the spec: the thresholds that sw.find_valid_sleep_blocks
    and sw.find_gaps2fill use when the caller passes none: 30 minutes
    (the message of main says "No sleep windows >30 mins detected") and the
    reference gap threshold of 3 hours, in seconds. *)
Definition MIN_SLEEP_BLOCK : Z := 30 * 60.

(** Modelled from the spec: the reference gap-fill threshold (4.3, 6), in
    seconds. *)
Definition GAP_THRESHOLD : Z := NON_WEAR_THRESHOLD * 3600.

(** Modelled from the spec: sw.find_valid_sleep_blocks as get_sleep_windows
    calls it. *)
Definition find_valid_sleep_blocks : list block -> Z -> list nat :=
  find_valid_sleep_blocks_with MIN_SLEEP_BLOCK.

(** Modelled from the spec: sw.find_gaps2fill as get_sleep_windows calls
    it. *)
Definition find_gaps2fill : list nat -> Z -> list block -> list nat :=
  find_gaps2fill_with GAP_THRESHOLD.

(** Modelled from the spec: the Night Interval a row is assigned to, for
    step 4 of the Night Assembler (4.4). *)
Definition night_of (r : sleep_win) : Z * Z :=
  (interval_start r, interval_end r).

(** Modelled from the spec: the duration of a block of the table. *)
Definition win_duration (r : sleep_win) : Z := end_ r - start r.

(** Modelled from the spec: [r] is to be preferred to [best], being longer,
    or as long and starting earlier (4.4). *)
Definition longer (r best : sleep_win) : bool :=
  (win_duration best <? win_duration r)
  || ((win_duration r =? win_duration best) && (start r <? start best)).

(** Modelled from the spec: the longest block of the rows of one night
    (4.4, step 4): maximum duration, ties broken by the earliest start. *)
Fixpoint longest_block (rows : list sleep_win) : option sleep_win :=
  match rows with
  | [] => None
  | r :: rows' =>
      match longest_block rows' with
      | Some best => if longer best r then Some best else Some r
      | None => Some r
      end
  end.

(** Modelled from the spec: the rows assigned to a night (4.4, step 2). *)
Definition rows_of_night (table : list sleep_win) (night : Z * Z)
  : list sleep_win :=
  filter (fun r => night_of r = night) table.

(** Modelled from the spec: the per-night longest-block table that
    sw.time_series2sleep_blocks returns (4.4, step 5; 6), one
    [(start, end)] row per night that has a block. *)
Definition longest_per_night (table : list sleep_win) : list (Z * Z) :=
  omap (fun night =>
          (fun r => (start r, end_ r))
            <$> longest_block (rows_of_night table night))
       (remove_dups (map night_of table)).

End sw.

(** ** Vocabulary of the stitching properties *)

(** The refined predictions returned for a block id:
    [y_pred[test_pids == block_id]]. *)
Definition refined (y_pred test_pids : list Z) (block_id : nat) : list Z :=
  np.take_mask (map (fun pid => pid =? Z.of_nat block_id) test_pids) y_pred.

(** The number of epochs whose timestamp lies in a block. *)
Definition block_size (times : list Z) (row : sleep_win) : nat :=
  length (filter (in_block row) times).

(** A block whose refined predictions cannot be assigned: their number is
    neither the number of epochs of the block nor one. *)
Definition misaligned (times : list Z) (y_pred test_pids : list Z)
    (block_id : nat) (row : sleep_win) : Prop :=
  length (refined y_pred test_pids block_id) <> block_size times row
  /\ length (refined y_pred test_pids block_id) <> 1%nat.

#[global] Instance misaligned_dec times y_pred test_pids k row :
  Decision (misaligned times y_pred test_pids k row).
Proof. unfold misaligned. apply _. Defined.

(** ** Example collaborators, for the concrete runs *)

Module demo.

(** A coarse classifier that reads its label off the input. *)
Definition predict (x : list Z) : list Z := x.

(** A label table that keeps the codes -1, 0 and 1. *)
Definition SLEEPNET_LABELS (code : Z) : option Z :=
  if (-1 <=? code) && (code <=? 1) then Some code else None.

Definition is_sleep_epoch (e : epoch) : bool :=
  bool_decide (label e = Some sw.SLEEP).

(** The sleep runs of a series as [(start, end)] pairs, the end being the
    start of the epoch after the run. *)
Fixpoint sleep_runs (my_df : list epoch) : list (Z * Z) :=
  match my_df with
  | [] => []
  | e :: my_df' =>
      let runs := sleep_runs my_df' in
      if is_sleep_epoch e then
        match head my_df', runs with
        | Some e', (s, en) :: runs' =>
            if is_sleep_epoch e' then (time e, en) :: runs'
            else (time e, time e + 30) :: runs
        | _, _ => (time e, time e + 30) :: runs
        end
      else runs
  end.

(** A night assembler for series that stay within the one night
    [[0, 86400)]. *)
Definition time_series2sleep_blocks (my_df : list epoch)
  : list (Z * Z) * list (Z * Z) * list Z * list Z * list Q :=
  let all_sleep_wins := sleep_runs my_df in
  let table :=
    map (fun w => mk_sleep_win w.1 w.2 0 86400 (24 # 1)) all_sleep_wins in
  (all_sleep_wins, sw.longest_per_night table,
   map (fun _ => 0) all_sleep_wins, map (fun _ => 86400) all_sleep_wins,
   map (fun _ => 24 # 1) all_sleep_wins).

(** A second model that answers stage 2 for every epoch it is given. *)
Definition start_sleep_net (master_acc : list Z) (master_npids : list Z)
    (outdir model_weight_path local_repo_path device_id : string)
  : list Z * list Z :=
  (map (fun _ => 2) master_acc, master_npids).

Definition args (force_run : bool) (min_wear : Z) : Args :=
  mk_Args "data/sample.cwa.gz" "outputs/sample" false force_run false false
    "cpu" "" "" min_wear "0".

(** main with these collaborators and the module asleep.sleep_windows as
    modelled above. *)
Definition main (a : Args) (data2model : list Z) (times : list Z)
    (non_wear : list bool) (ssl_sleep : option (list Z))
  : list event * outcome :=
  main predict SLEEPNET_LABELS sw.find_sleep_block_duration
    sw.find_valid_sleep_blocks sw.find_gaps2fill sw.fill_gaps
    time_series2sleep_blocks start_sleep_net a data2model times non_wear
    ssl_sleep.

Definition get_sleep_windows (a : Args) (data2model : list Z)
    (times : list Z) (non_wear : list bool) (ssl_sleep : option (list Z))
  : result (sleep_windows_result Z) :=
  get_sleep_windows predict SLEEPNET_LABELS sw.find_sleep_block_duration
    sw.find_valid_sleep_blocks sw.find_gaps2fill sw.fill_gaps
    time_series2sleep_blocks data2model times non_wear a ssl_sleep.

End demo.

(** ** Vocabulary of the longest-block property *)

(** The [(start, end)] columns of a row. *)
Definition start_end (r : sleep_win) : Z * Z := (start r, end_ r).

(** The rows marked [is_longest_block] that are assigned to a night. *)
Definition marked_in_night (night : Z * Z)
    (sleep_block : list (sleep_win * bool)) : list (sleep_win * bool) :=
  filter (fun x => x.2 = true /\ sw.night_of x.1 = night) sleep_block.

(** ** Example series *)

(** Epochs 30 seconds apart from time 0, with the given labels. *)
Definition series_of (labels : list Z) : list epoch :=
  imap (fun i y =>
          mk_epoch (30 * Z.of_nat i) (Some y)
            (bool_decide (Some y <> Some NON_WEAR_PREDICTION_FLAG)))
       labels.

(** Two epochs of sleep, one of wake, two of sleep, one of non-wear, two of
    sleep. *)
Definition flickering_night : list epoch :=
  series_of [1; 1; 0; 1; 1; -1; 1; 1].

(** ** Vocabulary of the mapping properties *)

(** The block ids of a mapping, given the number of epochs of each block:
    the row index of a block, once per epoch, from row [index] on. *)
Fixpoint ids_from (index : nat) (sizes : list nat) : list Z :=
  match sizes with
  | [] => []
  | n :: sizes' => replicate n (Z.of_nat index) ++ ids_from (S index) sizes'
  end.

(** The position in the mapping of the first epoch of block [k]. *)
Definition block_offset (times : list Z) (block_time_df : list sleep_win)
    (k : nat) : nat :=
  sum_list (map (block_size times) (take k block_time_df)).

(** No epoch lies in two blocks of the table. *)
Definition disjoint_blocks (block_time_df : list sleep_win) : Prop :=
  forall i j ri rj t,
    i <> j -> block_time_df !! i = Some ri -> block_time_df !! j = Some rj ->
    in_block ri t -> ~ in_block rj t.

(** The configuration with another [min_wear]. *)
Definition with_min_wear (args : Args) (m : Z) : Args :=
  mk_Args (filepath args) (outdir args) (force_download args)
    (force_run args) (remove_intermediate_files args)
    (report_light_and_temp args) (pytorch_device args)
    (model_weight_path args) (local_repo_path args) m (time_shift args).

(** ** get_parsed_data: the time shift *)

(** Lines 62-67.  A [str] is modelled by a [string] whose characters are the
    characters of the [str] (characters below U+0100).  [int] is the Python
    builtin applied to the rest of the argument; it returns the number or
    raises ValueError. *)
Definition time_shift_of (int : string -> result Z) (time_shift : string)
  : result Z :=
  if negb (String.eqb time_shift "0") then
    match time_shift with
    | EmptyString => Raise IndexError
    | String c rest =>
        if Ascii.eqb c "-" then n ← int rest; Ok (- n)
        else int rest
    end
  else Ok 0.

(** The decimal numeral of a natural number, as [str(n)] writes it. *)
Definition numeral (n : N) : string :=
  NilEmpty.string_of_uint (N.to_uint n).

(** ** transform_data2model_input and the intermediate files *)

(** The columns of the parsed recording that the transformation reads:
    [time], [non_wear] and the rows of [x], [y], [z]. *)
Record recording (X : Type) : Type := mk_recording {
  rec_time : list Z;
  rec_non_wear : list bool;
  rec_xyz : list X
}.

Arguments mk_recording {X}.
Arguments rec_time {X}.
Arguments rec_non_wear {X}.
Arguments rec_xyz {X}.

(** The three files of the output directory that the transformation keeps:
    data2model.npy, times.npy and non_wear.npy (three different paths, as
    in main), each absent or holding an array of the kind np.save writes
    there. *)
Record npy_files (A : Type) : Type := mk_npy_files {
  data2model_npy : option (list A);
  times_npy : option (list Z);
  non_wear_npy : option (list bool)
}.

Arguments mk_npy_files {A}.
Arguments data2model_npy {A}.
Arguments times_npy {A}.
Arguments non_wear_npy {A}.

Section transform.

Context {X A : Type}.

(** [data_long2wide] of asleep.utils. *)
Variable data_long2wide :
  list X -> list Z -> list bool -> list A * list Z * list bool.

(** Lines 92-143: the arrays returned and the files afterwards.  The
    messages printed are not recorded. *)
Definition transform_data2model_input (data : recording X) (args : Args)
    (files : npy_files A)
  : (list A * list Z * list bool) * npy_files A :=
  match data2model_npy files, times_npy files, non_wear_npy files,
        force_run args with
  | Some data2model, Some times_windowed, Some non_wear_windowed, false =>
      ((data2model, times_windowed, non_wear_windowed), files)
  | _, _, _, _ =>
      let times := rec_time data in
      let non_wear := rec_non_wear data in
      let xyz_data := rec_xyz data in
      let '(data2model, times_windowed, non_wear_windowed) :=
        data_long2wide xyz_data times non_wear in
      ((data2model, times_windowed, non_wear_windowed),
       mk_npy_files (Some data2model) (Some times_windowed)
         (Some non_wear_windowed))
  end.

(** [os.remove(data2model_path)], which raises FileNotFoundError when the
    file is absent. *)
Definition remove_data2model (files : npy_files A)
  : option (npy_files A) :=
  match data2model_npy files with
  | Some _ => Some (mk_npy_files None (times_npy files) (non_wear_npy files))
  | None => None
  end.

(** Lines 323-342 of main: the transformation, then the removal of
    data2model.npy when [remove_intermediate_files] is set.  [None] stands
    for FileNotFoundError. *)
Definition main_transform (data : recording X) (args : Args)
    (files : npy_files A)
  : option ((list A * list Z * list bool) * npy_files A) :=
  let '(arrays, files) := transform_data2model_input data args files in
  if remove_intermediate_files args then
    files ← remove_data2model files; Some (arrays, files)
  else Some (arrays, files).

End transform.

(** A reading of numerals for the examples: a string of decimal digits is
    read as [int] reads it.  Every other string raises ValueError here,
    which [int] does for the empty string but not for all of them ([int]
    also accepts blanks around the numeral, a sign and underscores between
    digits). *)
Definition decimal_int (s : string) : result Z :=
  match s with
  | EmptyString => Raise ValueError
  | _ =>
      match NilEmpty.uint_of_string s with
      | Some d => Ok (Z.of_N (N.of_uint d))
      | None => Raise ValueError
      end
  end.

(** A stand-in for [data_long2wide] in the examples: a recording that has
    one row per window already is passed through. *)
Definition one_row_windows (xyz : list Z) (times : list Z)
    (non_wear : list bool) : list Z * list Z * list bool :=
  (xyz, times, non_wear).

(** Arguments with [remove_intermediate_files] set, for the examples. *)
Definition removing_args (force_run : bool) : Args :=
  mk_Args "data/sample.cwa.gz" "outputs/sample" false force_run true false
    "cpu" "" "" 22 "0".

(** ** get_sleep_windows and the output directory *)

(** Lines 175-190: the content of ssl_sleep.npy after the call.  When the
    predictions are computed and the mask assignment of line 184 succeeds,
    np.save writes them (line 187), after the two prints of lines 185-186;
    in every other case the file is as it was. *)
Definition ssl_sleep_after {A : Type} (predict : list A -> list Z)
    (data2model : list A) (times : list Z) (non_wear : list bool)
    (args : Args) (ssl_sleep : option (list Z)) : option (list Z) :=
  match np.getitem_mask data2model (map negb non_wear) with
  | Ok data2model =>
      match ssl_sleep with
      | Some saved =>
          if force_run args then
            match fresh_sleep_prediction times non_wear (predict data2model)
            with
            | Ok sleep_prediction => Some sleep_prediction
            | Raise _ => ssl_sleep
            end
          else ssl_sleep
      | None =>
          match fresh_sleep_prediction times non_wear (predict data2model)
          with
          | Ok sleep_prediction => Some sleep_prediction
          | Raise _ => ssl_sleep
          end
      end
  | Raise _ => ssl_sleep
  end.

Section get_sleep_windows_on_disk.

Context {A : Type}.

(** [ssl_sleep_npy dir]: the array held by the file ssl_sleep.npy of the
    directory [dir], when that file exists (line 170 joins [args.outdir]
    with the file name). *)
Variable ssl_sleep_npy : string -> option (list Z).

(** [load_model force_download]: the [predict] of the detector that
    [load_model(model_path, force_download=args.force_download)] returns
    (lines 176-183; [model_path] is fixed by the package). *)
Variable load_model : bool -> list A -> list Z.

Variable SLEEPNET_LABELS : Z -> option Z.
Context {counter_t : Type}.
Variable find_sleep_block_duration : list epoch -> counter_t.
Variable find_valid_sleep_blocks : counter_t -> Z -> list nat.
Variable find_gaps2fill : list nat -> Z -> counter_t -> list nat.
Variable fill_gaps : list epoch -> counter_t -> list nat -> list epoch.
Variable time_series2sleep_blocks :
  list epoch -> list (Z * Z) * list (Z * Z) * list Z * list Z * list Q.

(** get_sleep_windows with what it reads from the configuration made
    explicit: the saved predictions are looked up in [args.outdir] and the
    classifier is loaded with [args.force_download]. *)
Definition get_sleep_windows_on_disk (data2model : list A) (times : list Z)
    (non_wear : list bool) (args : Args)
  : result (sleep_windows_result A) :=
  get_sleep_windows (load_model (force_download args)) SLEEPNET_LABELS
    find_sleep_block_duration find_valid_sleep_blocks find_gaps2fill
    fill_gaps time_series2sleep_blocks data2model times non_wear args
    (ssl_sleep_npy (outdir args)).

End get_sleep_windows_on_disk.

(** A directory listing for the examples: ssl_sleep.npy exists in
    [outputs/sample] only, holding four predictions of sleep. *)
Definition sample_ssl_sleep_npy (dir : string) : option (list Z) :=
  if String.eqb dir "outputs/sample" then Some [1; 1; 1; 1] else None.

(** Two detectors for the examples: the downloaded one answers as
    [demo.predict], the local one predicts wake throughout. *)
Definition sample_load_model (force_download : bool) (windows : list Z)
  : list Z :=
  if force_download then demo.predict windows else map (fun _ => 0) windows.

(** Arguments for the examples that differ from [demo.args] in every field
    that get_sleep_windows does not read. *)
Definition other_args (force_run : bool) : Args :=
  mk_Args "data/other.cwa.gz" "outputs/sample" false force_run true true
    "cuda:0" "weights.pt" "repo" (-1) "+2".

(** * Properties *)

Lemma map_as_fmap {X Y : Type} (f : X -> Y) (l : list X) : map f l = f <$> l.
Proof. reflexivity. Qed.

Lemma in_blockb_spec row t : in_blockb row t = true <-> in_block row t.
Proof.
  unfold in_blockb, in_block.
  rewrite andb_true_iff, Z.leb_le, Z.ltb_lt. tauto.
Qed.

Lemma in_blockb_false row t : in_blockb row t = false <-> ~ in_block row t.
Proof.
  rewrite <- in_blockb_spec. destruct (in_blockb row t); split; congruence.
Qed.

(** ** Mask lemmas *)

Section mask_facts.
Context {A : Type}.
Implicit Types (mask : list bool) (a v : list A).

Lemma length_take_mask mask a :
  length mask = length a ->
  length (np.take_mask mask a) = np.count_nonzero mask.
Proof.
  revert a. induction mask as [|b mask IH]; intros [|x a] Hl; simpl in *;
    try discriminate; auto.
  destruct b; simpl; rewrite IH by lia; reflexivity.
Qed.

Lemma length_put_mask mask a v : length (np.put_mask mask a v) = length a.
Proof.
  revert a v. induction mask as [|b mask IH]; intros [|x a] v; simpl; auto.
  destruct b; [destruct v|]; simpl; rewrite IH; reflexivity.
Qed.

Lemma length_fill_mask mask a y : length (np.fill_mask mask a y) = length a.
Proof.
  revert a. induction mask as [|b mask IH]; intros [|x a]; simpl; auto.
Qed.

(** With exactly one selected position, broadcasting and elementwise
    assignment coincide. *)
Lemma fill_mask_put_mask mask a y :
  np.count_nonzero mask = 1%nat ->
  np.fill_mask mask a y = np.put_mask mask a [y].
Proof.
  revert a. induction mask as [|b mask IH]; intros [|x a] Hc; simpl in *;
    try reflexivity.
  destruct b; simpl in *.
  - f_equal. assert (Hz : np.count_nonzero mask = 0%nat) by lia.
    clear IH Hc. revert a Hz.
    induction mask as [|b mask IH]; intros [|x' a] Hz; simpl in *; auto.
    destruct b; simpl in *; [lia|]. f_equal. apply IH. exact Hz.
  - f_equal. apply IH. exact Hc.
Qed.

(** Unselected positions keep their value. *)
Lemma put_mask_lookup_false mask a v i :
  mask !! i = Some false -> np.put_mask mask a v !! i = a !! i.
Proof.
  revert a v i. induction mask as [|b mask IH]; intros [|x a] v [|i] Hm;
    simpl in *; try discriminate; auto.
  - injection Hm as ->. reflexivity.
  - destruct b; [destruct v|]; simpl; apply IH; exact Hm.
Qed.

Lemma fill_mask_lookup_false mask a y i :
  mask !! i = Some false -> np.fill_mask mask a y !! i = a !! i.
Proof.
  revert a i. induction mask as [|b mask IH]; intros [|x a] [|i] Hm;
    simpl in *; try discriminate; auto.
  injection Hm as ->. reflexivity.
Qed.

Lemma fill_mask_lookup_true mask a y i :
  length mask = length a ->
  mask !! i = Some true -> np.fill_mask mask a y !! i = Some y.
Proof.
  revert a i. induction mask as [|b mask IH]; intros [|x a] [|i] Hl Hm;
    simpl in *; try discriminate.
  - injection Hm as ->. reflexivity.
  - apply IH; [lia | exact Hm].
Qed.

(** A selected position receives the value whose rank is the number of
    selected positions before it. *)
Lemma put_mask_lookup_true mask a v i :
  length mask = length a ->
  length v = np.count_nonzero mask ->
  mask !! i = Some true ->
  np.put_mask mask a v !! i = v !! np.count_nonzero (take i mask).
Proof.
  revert a v i. induction mask as [|b mask IH]; intros [|x a] v [|i] Hl Hv Hm;
    simpl in *; try discriminate.
  - injection Hm as ->. destruct v; simpl in *; [lia | reflexivity].
  - destruct b; simpl in *.
    + destruct v as [|y v]; simpl in *; [lia|].
      apply IH; [lia | lia | exact Hm].
    + apply IH; [lia | lia | exact Hm].
Qed.

End mask_facts.

Lemma count_nonzero_time_filter times row :
  np.count_nonzero (time_filter times (start row) (end_ row))
  = length (filter (in_block row) times).
Proof.
  induction times as [|t times IH]; simpl; [reflexivity|].
  rewrite filter_cons.
  fold (in_blockb row t).
  destruct (decide (in_block row t)) as [Hin|Hout].
  - apply in_blockb_spec in Hin. rewrite Hin. simpl. rewrite <- IH. reflexivity.
  - apply in_blockb_false in Hout. rewrite Hout. simpl. exact IH.
Qed.

Lemma take_mask_time_filter {A : Type} times (acc : list A) row :
  np.take_mask (time_filter times (start row) (end_ row)) acc
  = (filter (fun p => in_block row p.1) (zip times acc)).*2.
Proof.
  revert acc. induction times as [|t times IH]; intros [|x acc];
    try reflexivity.
  cbn [time_filter map np.take_mask zip zip_with].
  rewrite filter_cons. fold (in_blockb row t).
  fold (time_filter times (start row) (end_ row)).
  destruct (decide _) as [Hin|Hout]; cbn [fst] in *.
  - apply in_blockb_spec in Hin. rewrite Hin, IH. reflexivity.
  - apply in_blockb_false in Hout. rewrite Hout. apply IH.
Qed.

Lemma length_block_epochs {A : Type} times (acc_array : list A) row :
  length acc_array = length times ->
  length (block_epochs times acc_array row)
  = length (filter (in_block row) times).
Proof.
  intros Hl. unfold block_epochs.
  rewrite <- take_mask_time_filter, length_take_mask.
  - apply count_nonzero_time_filter.
  - unfold time_filter. rewrite length_map. lia.
Qed.

Lemma filter_zip_fst {X Y : Type} (P : X -> Prop)
    `{!forall x, Decision (P x)} (l : list X) (k : list Y) :
  (length l <= length k)%nat ->
  (filter (fun p => P p.1) (zip l k)).*1 = filter P l.
Proof.
  revert k. induction l as [|x l IH]; intros [|y k] Hl; simpl in *;
    try reflexivity; [lia|].
  rewrite !filter_cons. cbn [fst].
  destruct (decide (P x)); [rewrite fmap_cons|]; rewrite IH by lia;
    reflexivity.
Qed.

Lemma StronglySorted_filter {X : Type} (R : relation X) (P : X -> Prop)
    `{!forall x, Decision (P x)} (l : list X) :
  StronglySorted R l -> StronglySorted R (filter P l).
Proof.
  induction 1 as [|x l Hs IH Hx]; [constructor|].
  rewrite filter_cons. destruct (decide (P x)); [|exact IH].
  constructor; [exact IH|].
  apply Forall_forall. intros y Hy. apply list_elem_of_filter in Hy as [_ Hy].
  rewrite Forall_forall in Hx. apply Hx, Hy.
Qed.

Lemma get_master_df_loop_spec {A : Type} times (acc_array : list A) df :
  length acc_array = length times ->
  forall k master_acc master_npids,
    length master_acc = length master_npids ->
    get_master_df_loop (zip (seq k (length df)) df) times acc_array
      master_acc master_npids
    = Ok (master_acc ++ concat (map (block_epochs times acc_array) df),
          master_npids
            ++ concat (imap (fun i => block_ids times (k + i)) df)).
Proof.
  intros Hl. induction df as [|row df IH]; intros k macc mnp Hacc.
  - simpl. rewrite !app_nil_r. reflexivity.
  - cbn [length seq zip zip_with get_master_df_loop].
    unfold np.getitem_mask.
    destruct (decide (length (time_filter _ _ _) = _)) as [_|Hne];
      [|exfalso; apply Hne; unfold time_filter; rewrite length_map; lia].
    cbn [mbind result_bind].
    rewrite take_mask_time_filter, count_nonzero_time_filter.
    fold (block_epochs times acc_array row). fold (block_ids times k row).
    assert (Hnew : length (block_epochs times acc_array row)
                   = length (block_ids times k row)).
    { rewrite length_block_epochs by exact Hl.
      unfold block_ids. rewrite length_replicate. reflexivity. }
    assert (Hshift : imap (fun i => block_ids times (k + i)) (row :: df)
              = block_ids times k row
                :: imap (fun i => block_ids times (S k + i)) df).
    { rewrite imap_cons. rewrite Nat.add_0_r. f_equal.
      apply imap_ext. intros i x _. simpl. f_equal. lia. }
    rewrite Hshift. cbn [map concat].
    destruct (decide (length mnp = 0%nat)) as [Hz|Hnz].
    + rewrite IH by exact Hnew.
      destruct mnp; [|discriminate]. destruct macc; [|discriminate].
      reflexivity.
    + rewrite IH by (rewrite !length_app; lia).
      rewrite <- !app_assoc. reflexivity.
Qed.

(** C5.  For a data array as long as the series, get_master_df returns, for
    the rows of the block table in row order, the data of the epochs whose
    timestamp t satisfies start <= t < end together with the row index as
    block id, once per such epoch; the mapping is as long as the extracted
    data, which is the total number of epochs covered.  The data of a block
    is in series order: its timestamps are those of the series that lie in
    the block, increasing when the series is. *)
Theorem get_master_df_block_mapping {A : Type} (block_time_df : list sleep_win)
    (times : list Z) (acc_array : list A) :
  length acc_array = length times ->
  exists master_acc master_npids,
    get_master_df block_time_df times acc_array = Ok (master_acc, master_npids)
    /\ master_acc = concat (map (block_epochs times acc_array) block_time_df)
    /\ master_npids = concat (imap (block_ids times) block_time_df)
    /\ length master_npids = length master_acc
    /\ length master_npids
       = sum_list (map (fun row => length (filter (in_block row) times))
                       block_time_df)
    /\ (forall row,
          (filter (fun p => in_block row p.1) (zip times acc_array)).*1
          = filter (in_block row) times)
    /\ (StronglySorted Z.lt times ->
        forall row, StronglySorted Z.lt (filter (in_block row) times)).
Proof.
  intros Hl. eexists _, _.
  split; [|split; [reflexivity|split; [reflexivity|]]].
  - unfold get_master_df, iterrows.
    rewrite (get_master_df_loop_spec times acc_array block_time_df Hl 0 [] [])
      by reflexivity.
    reflexivity.
  - assert (Hgen : forall k,
      length (concat (imap (fun i => block_ids times (k + i)) block_time_df))
      = sum_list (map (fun row => length (filter (in_block row) times))
                      block_time_df)
      /\ length (concat (map (block_epochs times acc_array) block_time_df))
      = sum_list (map (fun row => length (filter (in_block row) times))
                      block_time_df)).
    { induction block_time_df as [|row df IH]; intros k; [split; reflexivity|].
      rewrite imap_cons. cbn [map concat sum_list sum_list_with].
      rewrite !length_app, length_block_epochs by exact Hl.
      unfold block_ids at 1. rewrite length_replicate.
      destruct (IH (S k)) as [IH1 IH2]. rewrite IH2. split; [|reflexivity].
      assert (Hi : imap ((fun i => block_ids times (k + i)) ∘ S) df
                   = imap (fun i => block_ids times (S k + i)) df).
      { apply imap_ext. intros i x _. simpl. f_equal. lia. }
      rewrite Hi, IH1. reflexivity. }
    destruct (Hgen 0%nat) as [H1 H2].
    split; [etransitivity; [exact H1 | symmetry; exact H2]|].
    split; [exact H1|]. split.
    + intros row. apply filter_zip_fst. lia.
    + intros Hs row. apply StronglySorted_filter, Hs.
Qed.

Lemma get_master_df_block_mapping_witness :
  get_master_df [demo_win 30 90; demo_win 120 150] [0; 30; 60; 90; 120]
    ["a"; "b"; "c"; "d"; "e"]%string
  = Ok (["b"; "c"; "e"]%string, [0; 0; 1]).
Proof.
  destruct (get_master_df_block_mapping
              [demo_win 30 90; demo_win 120 150] [0; 30; 60; 90; 120]
              ["a"; "b"; "c"; "d"; "e"]%string eq_refl)
    as (macc & mnp & Heq & -> & -> & _).
  exact Heq.
Defined.

(** ** Aligned mask assignment *)

Lemma setitem_mask_aligned {A : Type} (a : list A) mask v :
  length mask = length a ->
  length v = np.count_nonzero mask ->
  np.setitem_mask a mask v = Ok (np.put_mask mask a v).
Proof.
  intros Hl Hv. unfold np.setitem_mask.
  destruct (decide (length mask = length a)) as [_|]; [|contradiction].
  destruct (decide (length v = np.count_nonzero mask)) as [_|];
    [|contradiction].
  destruct v as [|y [|z v]]; try reflexivity.
  rewrite fill_mask_put_mask by (symmetry; exact Hv). reflexivity.
Qed.

Lemma take_mask_put_mask {A : Type} mask (a v : list A) :
  length mask = length a ->
  length v = np.count_nonzero mask ->
  np.take_mask mask (np.put_mask mask a v) = v.
Proof.
  revert a v. induction mask as [|b mask IH]; intros [|x a] v Hl Hv;
    simpl in *; try discriminate.
  - destruct v; [reflexivity | discriminate].
  - destruct b; simpl in *.
    + destruct v as [|y v]; [discriminate|]. simpl in *.
      f_equal. apply IH; lia.
    + apply IH; lia.
Qed.

Lemma lookup_map_negb (l : list bool) i b :
  l !! i = Some b -> map negb l !! i = Some (negb b).
Proof.
  revert i. induction l as [|x l IH]; intros [|i] H; simpl in *;
    try discriminate.
  - injection H as ->. reflexivity.
  - apply IH. exact H.
Qed.

Lemma take_map {X Y : Type} (f : X -> Y) (l : list X) i :
  take i (map f l) = map f (take i l).
Proof.
  revert i. induction l as [|x l IH]; intros [|i]; simpl; try reflexivity.
  rewrite IH. reflexivity.
Qed.

(** C10.  When the coarse array is produced (line 171, then line 184 with one
    model prediction per worn epoch), it is as long as the series, every
    epoch whose non-wear flag is true holds the sentinel -1, and the epochs
    whose non-wear flag is false hold the model's predictions, in order. *)
Theorem fresh_sleep_prediction_sentinel (times : list Z)
    (non_wear : list bool) (window_pred : list Z) :
  length non_wear = length times ->
  length window_pred = np.count_nonzero (map negb non_wear) ->
  exists sleep_prediction,
    fresh_sleep_prediction times non_wear window_pred = Ok sleep_prediction
    /\ length sleep_prediction = length times
    /\ (forall i, non_wear !! i = Some true ->
          sleep_prediction !! i = Some NON_WEAR_PREDICTION_FLAG)
    /\ (forall i, non_wear !! i = Some false ->
          sleep_prediction !! i
          = window_pred !! np.count_nonzero (map negb (take i non_wear)))
    /\ np.take_mask (map negb non_wear) sleep_prediction = window_pred.
Proof.
  intros Hl Hv. unfold fresh_sleep_prediction.
  set (a := replicate (length times) (1 * NON_WEAR_PREDICTION_FLAG)).
  assert (Hla : length (map negb non_wear) = length a).
  { unfold a. rewrite length_map, length_replicate. exact Hl. }
  exists (np.put_mask (map negb non_wear) a window_pred).
  split; [apply setitem_mask_aligned; assumption|].
  split; [rewrite length_put_mask; unfold a; apply length_replicate|].
  split; [|split].
  - intros i Hi.
    rewrite put_mask_lookup_false by (apply (lookup_map_negb _ _ true), Hi).
    unfold a. apply lookup_replicate_2.
    apply lookup_lt_Some in Hi. lia.
  - intros i Hi.
    rewrite put_mask_lookup_true;
      [|exact Hla|exact Hv|apply (lookup_map_negb _ _ false), Hi].
    rewrite take_map. reflexivity.
  - apply take_mask_put_mask; assumption.
Qed.

Lemma fresh_sleep_prediction_sentinel_witness :
  fresh_sleep_prediction [0; 30; 60; 90] [false; true; false; true] [1; 0]
  = Ok [1; -1; 0; -1].
Proof.
  destruct (fresh_sleep_prediction_sentinel
              [0; 30; 60; 90] [false; true; false; true] [1; 0]
              eq_refl eq_refl) as (sp & Heq & _).
  rewrite Heq. vm_compute in Heq. injection Heq as <-. reflexivity.
Defined.

(** C7.  In the frame built from the series (lines 192-200), the wear flag
    of an epoch is false exactly when its binary label is the non-wear
    sentinel -1; every other label, a missing one included, has wear flag
    true. *)
Theorem is_wear_iff_not_sentinel (times : list Z) (binary_y : list (option Z))
    (my_df : list epoch) :
  make_my_df times binary_y (is_wear_of binary_y) = Ok my_df ->
  length my_df = length times
  /\ forall i e, my_df !! i = Some e ->
       times !! i = Some (time e)
       /\ binary_y !! i = Some (label e)
       /\ (is_wear e = false <-> label e = Some NON_WEAR_PREDICTION_FLAG)
       /\ (label e <> Some NON_WEAR_PREDICTION_FLAG -> is_wear e = true).
Proof.
  unfold make_my_df. destruct (decide _) as [[Hl Hw]|]; [|discriminate].
  intros [= <-]. split.
  - rewrite length_zip_with, length_zip. lia.
  - intros i e He.
    apply lookup_zip_with_Some in He as (t & [y w] & -> & Ht & Hyw).
    apply lookup_zip_with_Some in Hyw as (y' & w' & [= <- <-] & Hy & Hw').
    unfold is_wear_of in Hw'. rewrite map_as_fmap, list_lookup_fmap, Hy in Hw'.
    injection Hw' as <-. cbn [time label is_wear fst snd].
    split; [exact Ht|]. split; [exact Hy|]. split.
    + rewrite bool_decide_eq_false. split.
      * intros Hn. destruct (decide (y = Some NON_WEAR_PREDICTION_FLAG));
          [assumption|contradiction].
      * intros -> Hn. apply Hn. reflexivity.
    + intros Hn. apply bool_decide_eq_true. exact Hn.
Qed.

Lemma is_wear_iff_not_sentinel_witness :
  make_my_df [0; 30; 60] [Some 1; Some (-1); None]
    (is_wear_of [Some 1; Some (-1); None])
  = Ok [mk_epoch 0 (Some 1) true; mk_epoch 30 (Some (-1)) false;
        mk_epoch 60 None true]
  /\ (false = false <-> Some (-1) = Some NON_WEAR_PREDICTION_FLAG).
Proof.
  split; [reflexivity|].
  exact (proj1 (proj2 (proj2 (proj2
    (is_wear_iff_not_sentinel [0; 30; 60] [Some 1; Some (-1); None] _
       eq_refl) 1%nat (mk_epoch 30 (Some (-1)) false) eq_refl)))).
Defined.

(** ** Stitching *)

Lemma length_time_filter times s e :
  length (time_filter times s e) = length times.
Proof. unfold time_filter. apply length_map. Qed.

Lemma lookup_time_filter times row i t :
  times !! i = Some t ->
  time_filter times (start row) (end_ row) !! i = Some (in_blockb row t).
Proof.
  revert i. induction times as [|x times IH]; intros [|i] H; simpl in *;
    try discriminate.
  - injection H as ->. reflexivity.
  - apply IH. exact H.
Qed.

Lemma rank_time_filter times row i :
  np.count_nonzero (take i (time_filter times (start row) (end_ row)))
  = block_size (take i times) row.
Proof.
  unfold time_filter at 1. rewrite take_map.
  apply (count_nonzero_time_filter (take i times) row).
Qed.

Lemma block_size_take_lt times row i t :
  times !! i = Some t -> in_block row t ->
  (block_size (take i times) row < block_size times row)%nat.
Proof.
  unfold block_size. revert i.
  induction times as [|x times IH]; intros [|i] H Hin; simpl in *;
    try discriminate.
  - injection H as ->. rewrite filter_cons_True by exact Hin. simpl. lia.
  - specialize (IH i H Hin). rewrite !filter_cons.
    destruct (decide (in_block row x)); simpl; lia.
Qed.

Section stitching.

Variables (all_sleep_wins_df : list sleep_win) (times : list Z).
Variables (y_pred test_pids : list Z).
Hypothesis Hpids : length test_pids = length y_pred.

Let fill := fun ids out =>
  fill_sleepnet_predictions ids all_sleep_wins_df times y_pred test_pids out.

Lemma fill_sleepnet_predictions_step block_id ids row out :
  all_sleep_wins_df !! block_id = Some row ->
  fill (block_id :: ids) out
  = out' ← np.setitem_mask out (time_filter times (start row) (end_ row))
             (map Some (refined y_pred test_pids block_id));
    fill ids out'.
Proof.
  intros Hrow. unfold fill. cbn [fill_sleepnet_predictions].
  unfold iloc. rewrite Hrow. cbn [mbind result_bind].
  unfold np.getitem_mask.
  destruct (decide _) as [_|Hne];
    [|exfalso; apply Hne; rewrite length_map; exact Hpids].
  reflexivity.
Qed.

(** When every block of [ids] has as many refined predictions as epochs, the
    loop ends normally; an epoch that no block of [ids] covers keeps its
    value, and an epoch covered by a block of [ids], and by none after it,
    holds that block's prediction of the same rank. *)
Lemma fill_sleepnet_predictions_aligned ids :
  (forall k, k ∈ ids -> exists row,
      all_sleep_wins_df !! k = Some row
      /\ length (refined y_pred test_pids k) = block_size times row) ->
  forall out, length out = length times ->
  exists out',
    fill ids out = Ok out'
    /\ length out' = length times
    /\ forall i t, times !! i = Some t ->
         ((forall k row, k ∈ ids -> all_sleep_wins_df !! k = Some row ->
             ~ in_block row t) ->
          out' !! i = out !! i)
         /\ (forall l1 k l2 row,
               ids = l1 ++ k :: l2 ->
               all_sleep_wins_df !! k = Some row ->
               in_block row t ->
               (forall k' row', k' ∈ l2 ->
                  all_sleep_wins_df !! k' = Some row' -> ~ in_block row' t) ->
               out' !! i
               = map Some (refined y_pred test_pids k)
                   !! block_size (take i times) row).
Proof.
  induction ids as [|k0 ids IH]; intros Hal out Hout.
  - exists out. split; [reflexivity|]. split; [exact Hout|].
    intros i t Ht. split; [reflexivity|].
    intros [|? ?] k l2 row Heq; discriminate.
  - destruct (Hal k0 (list_elem_of_here _ _)) as (row0 & Hrow0 & Hlen0).
    rewrite (fill_sleepnet_predictions_step _ _ _ _ Hrow0).
    set (tf := time_filter times (start row0) (end_ row0)).
    assert (Htf : length tf = length out).
    { unfold tf. rewrite length_time_filter. lia. }
    assert (Hv : length (map Some (refined y_pred test_pids k0))
                 = np.count_nonzero tf).
    { rewrite length_map, Hlen0. unfold tf, block_size.
      symmetry. apply count_nonzero_time_filter. }
    rewrite (setitem_mask_aligned out tf _ Htf Hv). cbn [mbind result_bind].
    set (out1 := np.put_mask tf out (map Some (refined y_pred test_pids k0))).
    assert (Hout1 : length out1 = length times).
    { unfold out1. rewrite length_put_mask. exact Hout. }
    destruct (IH (fun k Hk => Hal k (list_elem_of_further _ _ _ Hk)) out1 Hout1)
      as (out' & Hrun & Hlen' & Hchar).
    exists out'. split; [exact Hrun|]. split; [exact Hlen'|].
    intros i t Ht. destruct (Hchar i t Ht) as [Hkeep Hlast].
    assert (Hmiss : ~ in_block row0 t -> out1 !! i = out !! i).
    { intros Hn. unfold out1. apply put_mask_lookup_false.
      unfold tf. rewrite (lookup_time_filter _ _ _ _ Ht).
      f_equal. apply in_blockb_false. exact Hn. }
    split.
    + intros Hnone. rewrite Hkeep.
      * apply Hmiss.
        apply (Hnone k0 row0); [apply list_elem_of_here|exact Hrow0].
      * intros k row Hk. apply Hnone. apply list_elem_of_further. exact Hk.
    + intros l1 k l2 row Heq Hrow Hin Hafter.
      destruct l1 as [|k1 l1]; simpl in Heq; injection Heq as <- ->.
      * rewrite Hrow0 in Hrow. injection Hrow as <-.
        rewrite Hkeep by exact Hafter.
        unfold out1. rewrite put_mask_lookup_true; [|exact Htf|exact Hv|].
        -- unfold tf. rewrite rank_time_filter. reflexivity.
        -- unfold tf. rewrite (lookup_time_filter _ _ _ _ Ht).
           f_equal. apply in_blockb_spec. exact Hin.
      * apply (Hlast l1 k l2 row eq_refl Hrow Hin Hafter).
Qed.

End stitching.

Lemma seq_split_at (n k : nat) :
  (k < n)%nat -> seq 0 n = seq 0 k ++ k :: seq (S k) (n - S k).
Proof.
  intros Hk. replace n with (k + S (n - S k))%nat at 1 by lia.
  rewrite seq_app. simpl. reflexivity.
Qed.

(** C2.  When every block has as many refined predictions as epochs, the
    stitched array has one entry per epoch of the series; the entry of an
    epoch that lies in no block is the coarse label, and the entry of an
    epoch that lies in a block (and in no later row of the table) is that
    block's refined prediction of the same chronological rank. *)
Theorem stitch_frame_and_refined (all_sleep_wins_df : list sleep_win)
    (times y_pred test_pids : list Z) (binary_y : list (option Z)) :
  length binary_y = length times ->
  length test_pids = length y_pred ->
  (forall k row, all_sleep_wins_df !! k = Some row ->
     length (refined y_pred test_pids k) = block_size times row) ->
  exists sleepnet_output,
    stitch all_sleep_wins_df times y_pred test_pids binary_y
    = Ok sleepnet_output
    /\ length sleepnet_output = length times
    /\ forall i t, times !! i = Some t ->
         ((forall row, row ∈ all_sleep_wins_df -> ~ in_block row t) ->
          sleepnet_output !! i = binary_y !! i)
         /\ (forall k row,
               all_sleep_wins_df !! k = Some row ->
               in_block row t ->
               (forall k' row', (k < k')%nat ->
                  all_sleep_wins_df !! k' = Some row' -> ~ in_block row' t) ->
               exists p,
                 refined y_pred test_pids k !! block_size (take i times) row
                 = Some p
                 /\ sleepnet_output !! i = Some (Some p)).
Proof.
  intros Hy Hpids Hal. unfold stitch.
  destruct (fill_sleepnet_predictions_aligned all_sleep_wins_df times
              y_pred test_pids Hpids (seq 0 (length all_sleep_wins_df)))
    with (out := binary_y) as (out' & Hrun & Hlen & Hchar).
  - intros k Hk. apply elem_of_seq in Hk.
    destruct (lookup_lt_is_Some_2 all_sleep_wins_df k) as [row Hrow]; [lia|].
    exists row. split; [exact Hrow | apply Hal, Hrow].
  - exact Hy.
  - exists out'. split; [exact Hrun|]. split; [exact Hlen|].
    intros i t Ht. destruct (Hchar i t Ht) as [Hkeep Hlast]. split.
    + intros Hnone. apply Hkeep. intros k row _ Hrow.
      apply Hnone. apply list_elem_of_lookup. exists k. exact Hrow.
    + intros k row Hrow Hin Hafter.
      pose proof (lookup_lt_Some _ _ _ Hrow) as Hk.
      pose proof (block_size_take_lt times row i t Ht Hin) as Hrank.
      rewrite <- (Hal k row Hrow) in Hrank.
      destruct (lookup_lt_is_Some_2 _ _ Hrank) as [p Hp].
      exists p. split; [exact Hp|].
      rewrite (Hlast (seq 0 k) k (seq (S k) (length all_sleep_wins_df - S k))
                 row (seq_split_at _ _ Hk) Hrow Hin).
      * change (map Some ?l) with (Some <$> l).
        rewrite list_lookup_fmap, Hp. reflexivity.
      * intros k' row' Hk'. apply elem_of_seq in Hk'. apply Hafter. lia.
Qed.

Lemma stitch_frame_and_refined_witness :
  stitch [demo_win 30 90; demo_win 120 150] [0; 30; 60; 90; 120]
    [2; 3; 4] [0; 0; 1] [Some 0; Some 1; Some 1; Some 0; Some 1]
  = Ok [Some 0; Some 2; Some 3; Some 0; Some 4].
Proof.
  destruct (stitch_frame_and_refined
              [demo_win 30 90; demo_win 120 150] [0; 30; 60; 90; 120]
              [2; 3; 4] [0; 0; 1] [Some 0; Some 1; Some 1; Some 0; Some 1]
              eq_refl eq_refl) as (out & Heq & _).
  - intros [|[|k]] row H; simpl in H; try discriminate;
      injection H as <-; reflexivity.
  - rewrite Heq. vm_compute in Heq. injection Heq as <-. reflexivity.
Defined.

(** ** Misaligned refined predictions *)

Lemma setitem_mask_length {A : Type} (a : list A) mask v a' :
  np.setitem_mask a mask v = Ok a' -> length a' = length a.
Proof.
  unfold np.setitem_mask. destruct (decide _); [|discriminate].
  destruct v as [|y [|z v]].
  - destruct (decide _); [|discriminate]. intros [= <-]. apply length_put_mask.
  - intros [= <-]. apply length_fill_mask.
  - destruct (decide _); [|discriminate]. intros [= <-]. apply length_put_mask.
Qed.

(** The assignment fails exactly when the number of values is neither one
    nor the number of selected positions, and then with ValueError. *)
Lemma setitem_mask_cases {A : Type} (a : list A) mask v :
  length mask = length a ->
  (length v <> np.count_nonzero mask /\ length v <> 1%nat
   -> np.setitem_mask a mask v = Raise ValueError)
  /\ (~ (length v <> np.count_nonzero mask /\ length v <> 1%nat)
      -> exists a', np.setitem_mask a mask v = Ok a').
Proof.
  intros Hl. unfold np.setitem_mask.
  destruct (decide (length mask = length a)) as [_|]; [|contradiction].
  destruct v as [|y [|z v]].
  - destruct (decide _) as [He|Hne]; split; intros H; eauto.
    + destruct H as [H _]. contradiction.
    + exfalso. apply H. split; [exact Hne | discriminate].
  - split; [intros [_ H]; contradiction | eauto].
  - destruct (decide _) as [He|Hne]; split; intros H; eauto.
    + destruct H as [H _]. contradiction.
    + exfalso. apply H. split; [exact Hne | discriminate].
Qed.

Section misalignment.

Variables (all_sleep_wins_df : list sleep_win) (times : list Z).
Variables (y_pred test_pids : list Z).
Hypothesis Hpids : length test_pids = length y_pred.

Let bad := fun k =>
  exists row, all_sleep_wins_df !! k = Some row
              /\ misaligned times y_pred test_pids k row.

Lemma fill_sleepnet_predictions_result ids :
  (forall k, k ∈ ids -> (k < length all_sleep_wins_df)%nat) ->
  forall out, length out = length times ->
  (Exists bad ids ->
   fill_sleepnet_predictions ids all_sleep_wins_df times y_pred test_pids out
   = Raise ValueError)
  /\ (Forall (fun k => ~ bad k) ids ->
      exists out',
        fill_sleepnet_predictions ids all_sleep_wins_df times y_pred
          test_pids out = Ok out').
Proof.
  induction ids as [|k0 ids IH]; intros Hids out Hout.
  - split; [intros H; inversion H | intros _; eexists; reflexivity].
  - destruct (lookup_lt_is_Some_2 all_sleep_wins_df k0) as [row0 Hrow0];
      [apply Hids, list_elem_of_here|].
    rewrite (fill_sleepnet_predictions_step _ _ _ _ Hpids _ _ _ _ Hrow0).
    set (tf := time_filter times (start row0) (end_ row0)).
    set (v := map Some (refined y_pred test_pids k0)).
    assert (Htf : length tf = length out).
    { unfold tf. rewrite length_time_filter. lia. }
    assert (Hbad0 : bad k0 <->
              length v <> np.count_nonzero tf /\ length v <> 1%nat).
    { unfold bad, misaligned, v, tf, block_size.
      rewrite length_map, count_nonzero_time_filter. split.
      - intros (row & Hrow & H). rewrite Hrow0 in Hrow.
        injection Hrow as <-. exact H.
      - intros H. exists row0. split; [exact Hrow0 | exact H]. }
    destruct (setitem_mask_cases out tf v Htf) as [Hfail Hok].
    destruct (decide (length v <> np.count_nonzero tf /\ length v <> 1%nat))
      as [Hb|Hg].
    + rewrite (Hfail Hb). cbn [mbind result_bind]. split; [reflexivity|].
      intros HF. apply Forall_cons in HF as [Hn _].
      exfalso. apply Hn, Hbad0, Hb.
    + destruct (Hok Hg) as [out1 Hset]. rewrite Hset. cbn [mbind result_bind].
      assert (Hout1 : length out1 = length times).
      { rewrite (setitem_mask_length _ _ _ _ Hset). exact Hout. }
      destruct (IH (fun k Hk => Hids k (list_elem_of_further _ _ _ Hk))
                  out1 Hout1) as [IHbad IHgood].
      split.
      * intros HE. apply Exists_cons in HE as [H0|Hrest].
        -- exfalso. apply Hg, Hbad0, H0.
        -- apply IHbad, Hrest.
      * intros HF. apply Forall_cons in HF as [_ Hrest].
        apply IHgood, Hrest.
Qed.

End misalignment.

(** C1, as the code has it.  For well-formed prediction arrays, stitching
    ends with the exception ValueError exactly when some block has a number
    of refined predictions that is neither its number of epochs nor one;
    otherwise it returns an array. *)
Theorem stitch_alignment_error (all_sleep_wins_df : list sleep_win)
    (times y_pred test_pids : list Z) (binary_y : list (option Z)) :
  length binary_y = length times ->
  length test_pids = length y_pred ->
  (stitch all_sleep_wins_df times y_pred test_pids binary_y
   = Raise ValueError
   <-> exists k row, all_sleep_wins_df !! k = Some row
                     /\ misaligned times y_pred test_pids k row)
  /\ ((forall k row, all_sleep_wins_df !! k = Some row ->
         ~ misaligned times y_pred test_pids k row) ->
      exists sleepnet_output,
        stitch all_sleep_wins_df times y_pred test_pids binary_y
        = Ok sleepnet_output).
Proof.
  intros Hy Hpids. unfold stitch.
  destruct (fill_sleepnet_predictions_result all_sleep_wins_df times y_pred
              test_pids Hpids (seq 0 (length all_sleep_wins_df)))
    with (out := binary_y) as [Hbad Hgood].
  - intros k Hk. apply elem_of_seq in Hk. lia.
  - exact Hy.
  - assert (Hall : (forall k row, all_sleep_wins_df !! k = Some row ->
                      ~ misaligned times y_pred test_pids k row) ->
                   Forall (fun k => ~ exists row,
                             all_sleep_wins_df !! k = Some row
                             /\ misaligned times y_pred test_pids k row)
                          (seq 0 (length all_sleep_wins_df))).
    { intros H. apply Forall_forall. intros k _ (row & Hrow & Hm).
      exact (H k row Hrow Hm). }
    split; [split|].
    + intros Hraise.
      assert (Hdec : forall k,
        {~ exists row, all_sleep_wins_df !! k = Some row
                       /\ misaligned times y_pred test_pids k row}
        + {exists row, all_sleep_wins_df !! k = Some row
                       /\ misaligned times y_pred test_pids k row}).
      { intros k. destruct (all_sleep_wins_df !! k) as [row|] eqn:Hrow.
        - destruct (decide (misaligned times y_pred test_pids k row))
            as [Hm|Hn].
          + right. eauto.
          + left. intros (row' & [= <-] & Hm). contradiction.
        - left. intros (row' & [=] & _). }
      destruct (Forall_Exists_dec _ _ Hdec (seq 0 (length all_sleep_wins_df)))
        as [HF|HE].
      * exfalso. destruct (Hgood HF) as [out' Hok]. congruence.
      * apply Exists_exists in HE as (k & _ & row & Hrow & Hm). eauto.
    + intros (k & row & Hrow & Hm). apply Hbad. apply Exists_exists.
      exists k. split; [|eauto].
      apply elem_of_seq. apply lookup_lt_Some in Hrow. lia.
    + intros H. apply Hgood, Hall, H.
Qed.

Lemma stitch_alignment_error_witness :
  stitch [demo_win 0 90] [0; 30; 60] [5; 6] [0; 0] [Some 1; Some 1; Some 1]
  = Raise ValueError.
Proof.
  apply (proj1 (stitch_alignment_error [demo_win 0 90] [0; 30; 60] [5; 6]
                  [0; 0] [Some 1; Some 1; Some 1] eq_refl eq_refl)).
  exists 0%nat, (demo_win 0 90). split; [reflexivity|].
  split; vm_compute; discriminate.
Defined.

(** C1, as stated, fails: one refined prediction for a block of three epochs
    is a length mismatch, yet stitching raises nothing and overwrites the
    three labels with the one prediction. *)
Lemma stitch_broadcasts_single_prediction :
  length (refined [5] [0] 0) <> block_size [0; 30; 60] (demo_win 0 90)
  /\ stitch [demo_win 0 90] [0; 30; 60] [5] [0] [Some 1; Some 1; Some 1]
     = Ok [Some 5; Some 5; Some 5].
Proof. split; [vm_compute; discriminate | reflexivity]. Qed.

(** ** What get_sleep_windows hands to main *)

Section handover.

Context {A : Type}.
Variable predict : list A -> list Z.
Variable SLEEPNET_LABELS : Z -> option Z.
Context {counter_t : Type}.
Variable find_sleep_block_duration : list epoch -> counter_t.
Variable find_valid_sleep_blocks : counter_t -> Z -> list nat.
Variable find_gaps2fill : list nat -> Z -> counter_t -> list nat.
Variable fill_gaps : list epoch -> counter_t -> list nat -> list epoch.
Variable time_series2sleep_blocks :
  list epoch -> list (Z * Z) * list (Z * Z) * list Z * list Z * list Q.
Variable start_sleep_net :
  list A -> list Z -> string -> string -> string -> string
  -> list Z * list Z.

(** The coarse labels returned are as many as the epochs, and the mapping
    returned is the one get_master_df builds from the returned table. *)
Lemma get_sleep_windows_Ok (args : Args) (data2model : list A)
    (times : list Z) (non_wear : list bool) (ssl_sleep : option (list Z))
    (r : sleep_windows_result A) :
  get_sleep_windows predict SLEEPNET_LABELS find_sleep_block_duration
    find_valid_sleep_blocks find_gaps2fill fill_gaps time_series2sleep_blocks
    data2model times non_wear args ssl_sleep = Ok r ->
  length (binary_y r) = length times
  /\ get_master_df (all_sleep_wins_df r) times data2model
     = Ok (master_acc r, master_npids r).
Proof.
  unfold get_sleep_windows.
  destruct (np.getitem_mask data2model _) as [d|]; [|discriminate].
  cbn [mbind result_bind].
  set (sp0 := match ssl_sleep with
              | Some saved =>
                  if force_run args then
                    fresh_sleep_prediction times non_wear (predict d)
                  else Ok saved
              | None => fresh_sleep_prediction times non_wear (predict d)
              end).
  destruct sp0 as [sp|]; [|discriminate]. cbn [mbind result_bind].
  destruct (np.vectorize_get _ sp) as [by_|]; [|discriminate].
  cbn [mbind result_bind].
  destruct (make_my_df times by_ _) as [df|] eqn:Hdf; [|discriminate].
  cbn [mbind result_bind].
  destruct (time_series2sleep_blocks _) as [[[[wins long] istart] iend] wear].
  destruct (make_all_sleep_wins_df _ _ _ _) as [table|]; [|discriminate].
  cbn [mbind result_bind].
  destruct (get_master_df table times data2model) as [[macc mnp]|] eqn:Hm;
    [|discriminate].
  cbn [mbind result_bind]. intros [= <-].
  cbn [binary_y all_sleep_wins_df master_acc master_npids].
  split; [|exact Hm].
  unfold make_my_df in Hdf.
  destruct (decide _) as [[Hl _]|]; [|discriminate].
  symmetry. exact Hl.
Qed.

(** In main, misaligned refined predictions end the run with ValueError
    after the second model was run and before anything is written. *)
Lemma main_alignment_error (args : Args) (data2model : list A)
    (times : list Z) (non_wear : list bool) (ssl_sleep : option (list Z))
    (r : sleep_windows_result A) (y_pred test_pids : list Z) k row :
  get_sleep_windows predict SLEEPNET_LABELS find_sleep_block_duration
    find_valid_sleep_blocks find_gaps2fill fill_gaps time_series2sleep_blocks
    data2model times non_wear args ssl_sleep = Ok r ->
  master_npids r <> [] ->
  start_sleep_net (master_acc r) (master_npids r) (outdir args)
    (model_weight_path args) (local_repo_path args) (pytorch_device args)
  = (y_pred, test_pids) ->
  length test_pids = length y_pred ->
  all_sleep_wins_df r !! k = Some row ->
  misaligned times y_pred test_pids k row ->
  main predict SLEEPNET_LABELS find_sleep_block_duration
    find_valid_sleep_blocks find_gaps2fill fill_gaps time_series2sleep_blocks
    start_sleep_net args data2model times non_wear ssl_sleep
  = ([start_sleep_net_call], Raised ValueError).
Proof.
  intros Hr Hne Hnet Hpids Hrow Hmis.
  destruct (get_sleep_windows_Ok _ _ _ _ _ _ Hr) as [Hlen _].
  unfold main. rewrite Hr.
  destruct (decide _) as [Hz|_].
  - destruct (master_npids r); [contradiction | simpl in Hz; lia].
  - rewrite Hnet. unfold stitch.
    destruct (fill_sleepnet_predictions_result (all_sleep_wins_df r) times
                y_pred test_pids Hpids (seq 0 (length (all_sleep_wins_df r))))
      with (out := binary_y r) as [Hraise _].
    + intros k' Hk'. apply elem_of_seq in Hk'. lia.
    + exact Hlen.
    + rewrite Hraise; [reflexivity|]. apply Exists_exists. exists k.
      split; [|eauto].
      apply elem_of_seq. apply lookup_lt_Some in Hrow. lia.
Qed.

End handover.

(** A table none of whose blocks covers an epoch yields the empty
    mapping. *)
Lemma get_master_df_no_epochs {A : Type} (block_time_df : list sleep_win)
    (times : list Z) (acc_array master_acc : list A) (master_npids : list Z) :
  (forall row, row ∈ block_time_df -> block_size times row = 0%nat) ->
  get_master_df block_time_df times acc_array = Ok (master_acc, master_npids) ->
  master_npids = [].
Proof.
  intros Hnone. unfold get_master_df, iterrows. generalize 0%nat as k.
  generalize (@nil A) as macc.
  induction block_time_df as [|row df IH]; intros macc k;
    cbn [length seq zip zip_with get_master_df_loop].
  - intros [= _ <-]. reflexivity.
  - destruct (np.getitem_mask acc_array _) as [cur|]; [|discriminate].
    cbn [mbind result_bind].
    rewrite count_nonzero_time_filter.
    fold (block_size times row).
    rewrite (Hnone row (list_elem_of_here _ _)).
    destruct (decide _) as [_|Hn]; [|contradiction].
    apply IH. intros row' Hrow'. apply Hnone, list_elem_of_further, Hrow'.
Qed.

(** ** The run with no sleep window *)

Section no_sleep_windows.

Context {A : Type}.
Variable predict : list A -> list Z.
Variable SLEEPNET_LABELS : Z -> option Z.
Context {counter_t : Type}.
Variable find_sleep_block_duration : list epoch -> counter_t.
Variable find_valid_sleep_blocks : counter_t -> Z -> list nat.
Variable find_gaps2fill : list nat -> Z -> counter_t -> list nat.
Variable fill_gaps : list epoch -> counter_t -> list nat -> list epoch.
Variable time_series2sleep_blocks :
  list epoch -> list (Z * Z) * list (Z * Z) * list Z * list Z * list Q.
Variable start_sleep_net :
  list A -> list Z -> string -> string -> string -> string
  -> list Z * list Z.

(** The branch of line 348. *)
Lemma main_exits_on_empty_mapping (args : Args) (data2model : list A)
    (times : list Z) (non_wear : list bool) (ssl_sleep : option (list Z))
    (r : sleep_windows_result A) :
  get_sleep_windows predict SLEEPNET_LABELS find_sleep_block_duration
    find_valid_sleep_blocks find_gaps2fill fill_gaps time_series2sleep_blocks
    data2model times non_wear args ssl_sleep = Ok r ->
  (length (master_npids r) <= 0)%nat ->
  main predict SLEEPNET_LABELS find_sleep_block_duration
    find_valid_sleep_blocks find_gaps2fill fill_gaps time_series2sleep_blocks
    start_sleep_net args data2model times non_wear ssl_sleep
  = (no_sleep_messages, Exited).
Proof.
  intros Hr Hlen. unfold main. rewrite Hr.
  destruct (decide _) as [_|Hn]; [reflexivity | contradiction].
Qed.

(** C3.  When get_sleep_windows returns a block table none of whose blocks
    covers an epoch (the empty table included), the block-to-epoch mapping
    is empty and main prints that no sleep window was detected (and where
    the non-wear flags and the coarse classification are) and leaves through
    exit(): the second model is not run, nothing is written and no summary
    is asked for, and no exception is raised. *)
Theorem main_no_sleep_windows (args : Args) (data2model : list A)
    (times : list Z) (non_wear : list bool) (ssl_sleep : option (list Z))
    (r : sleep_windows_result A) :
  get_sleep_windows predict SLEEPNET_LABELS find_sleep_block_duration
    find_valid_sleep_blocks find_gaps2fill fill_gaps time_series2sleep_blocks
    data2model times non_wear args ssl_sleep = Ok r ->
  (forall row, row ∈ all_sleep_wins_df r -> block_size times row = 0%nat) ->
  master_npids r = []
  /\ main predict SLEEPNET_LABELS find_sleep_block_duration
       find_valid_sleep_blocks find_gaps2fill fill_gaps
       time_series2sleep_blocks start_sleep_net args data2model times
       non_wear ssl_sleep
     = ([ print "No sleep windows >30 mins detected. Exiting...";
          print "Non-wear time has been written to %s";
          print "Current sleep classification has been written to %s" ],
        Exited).
Proof.
  intros Hr Hnone.
  destruct (get_sleep_windows_Ok predict SLEEPNET_LABELS
              find_sleep_block_duration find_valid_sleep_blocks
              find_gaps2fill fill_gaps time_series2sleep_blocks
              _ _ _ _ _ _ Hr) as [_ Hmap].
  assert (Hempty : master_npids r = [])
    by exact (get_master_df_no_epochs _ _ _ _ _ Hnone Hmap).
  split; [exact Hempty|].
  apply (main_exits_on_empty_mapping _ _ _ _ _ r Hr).
  rewrite Hempty. simpl. lia.
Qed.

End no_sleep_windows.

Lemma main_no_sleep_windows_witness :
  demo.main (demo.args false 22) [0; 0; -1; 0] [0; 30; 60; 90]
    [false; false; true; false] None
  = (no_sleep_messages, Exited).
Proof.
  refine (proj2 (main_no_sleep_windows demo.predict demo.SLEEPNET_LABELS
                   sw.find_sleep_block_duration sw.find_valid_sleep_blocks
                   sw.find_gaps2fill sw.fill_gaps
                   demo.time_series2sleep_blocks demo.start_sleep_net
                   (demo.args false 22) [0; 0; -1; 0] [0; 30; 60; 90]
                   [false; false; true; false] None
                   (mk_sleep_windows_result
                      [Some 0; Some 0; Some (-1); Some 0] [] [] [] [])
                   _ _)).
  - vm_compute. reflexivity.
  - intros row Hrow. inversion Hrow.
Defined.

(** ** Longest-block marking *)

Lemma mark_row_spec long x :
  mark_row long x = (x.1, x.2 || bool_decide (start_end x.1 = long)).
Proof.
  unfold mark_row, start_end. destruct x as [r b], long as [s e]. simpl.
  destruct (start r =? s) eqn:Hs, (end_ r =? e) eqn:He; simpl.
  - apply Z.eqb_eq in Hs, He. subst.
    rewrite bool_decide_eq_true_2 by reflexivity.
    rewrite orb_true_r. reflexivity.
  - apply Z.eqb_neq in He.
    rewrite bool_decide_eq_false_2 by congruence.
    rewrite orb_false_r. reflexivity.
  - apply Z.eqb_neq in Hs.
    rewrite bool_decide_eq_false_2 by congruence.
    rewrite orb_false_r. reflexivity.
  - apply Z.eqb_neq in Hs.
    rewrite bool_decide_eq_false_2 by congruence.
    rewrite orb_false_r. reflexivity.
Qed.

Lemma mark_loop_spec long_df df :
  foldl (fun df long => map (mark_row long) df) df long_df
  = map (fun x => (x.1, x.2 || bool_decide (start_end x.1 ∈ long_df))) df.
Proof.
  revert df. induction long_df as [|long long_df IH]; intros df;
    cbn [foldl].
  - rewrite !map_as_fmap. rewrite <- (list_fmap_id df) at 1.
    apply list_fmap_ext. intros i [r b] _. cbn [fst snd id].
    rewrite bool_decide_eq_false_2 by apply not_elem_of_nil.
    rewrite orb_false_r. reflexivity.
  - rewrite IH, !map_as_fmap, <- list_fmap_compose.
    apply list_fmap_ext. intros i x _. cbn [compose].
    rewrite mark_row_spec. cbn [fst snd]. f_equal.
    rewrite <- orb_assoc. f_equal.
    destruct (decide (start_end x.1 = long)) as [He|Hne].
    + rewrite (bool_decide_eq_true_2 _ He). simpl. symmetry.
      apply bool_decide_eq_true_2. rewrite He. apply list_elem_of_here.
    + rewrite (bool_decide_eq_false_2 _ Hne). simpl.
      apply bool_decide_ext. rewrite elem_of_cons. tauto.
Qed.

(** The marking sets the flag of a row exactly when its [(start, end)] is a
    row of the per-night table, and changes nothing else. *)
Lemma mark_longest_spec table long_df :
  mark_longest table long_df
  = map (fun r => (r, bool_decide (start_end r ∈ long_df))) table.
Proof.
  unfold mark_longest. rewrite mark_loop_spec, !map_as_fmap.
  rewrite <- list_fmap_compose. apply list_fmap_ext. intros i r _.
  reflexivity.
Qed.

Lemma longest_block_None rows : sw.longest_block rows = None <-> rows = [].
Proof.
  destruct rows as [|r rows]; simpl; [tauto|].
  destruct (sw.longest_block rows) as [best|];
    [destruct (sw.longer best r)|]; split; discriminate.
Qed.

(** The selected block is a block of the list, none is longer, and among
    those as long none starts earlier. *)
Lemma longest_block_Some rows r :
  sw.longest_block rows = Some r ->
  r ∈ rows
  /\ forall r', r' ∈ rows ->
       sw.win_duration r' <= sw.win_duration r
       /\ (sw.win_duration r' = sw.win_duration r -> start r <= start r').
Proof.
  revert r. induction rows as [|r0 rows IH]; intros r; simpl; [discriminate|].
  destruct (sw.longest_block rows) as [best|] eqn:Hbest.
  - destruct (IH best eq_refl) as [Hin Hmax].
    destruct (sw.longer best r0) eqn:Hl; intros [= <-];
      unfold sw.longer in Hl.
    + split; [apply list_elem_of_further, Hin|].
      intros r' Hr'. apply elem_of_cons in Hr' as [->|Hr']; [|apply Hmax, Hr'].
      apply orb_true_iff in Hl as [Hl|Hl].
      * apply Z.ltb_lt in Hl. lia.
      * apply andb_true_iff in Hl as [H1 H2].
        apply Z.eqb_eq in H1. apply Z.ltb_lt in H2. lia.
    + split; [apply list_elem_of_here|].
      apply orb_false_iff in Hl as [H1 H2]. apply Z.ltb_ge in H1.
      assert (Htie : sw.win_duration best = sw.win_duration r0
                     -> start r0 <= start best).
      { intros He. apply andb_false_iff in H2 as [H2|H2].
        - apply Z.eqb_neq in H2. congruence.
        - apply Z.ltb_ge in H2. exact H2. }
      intros r' Hr'. apply elem_of_cons in Hr' as [->|Hr']; [lia|].
      destruct (Hmax r' Hr') as [Hd Hs]. lia.
  - intros [= <-]. apply longest_block_None in Hbest as ->.
    split; [apply list_elem_of_here|].
    intros r' Hr'. apply list_elem_of_singleton in Hr' as ->. lia.
Qed.

Lemma elem_of_rows_of_night table night r :
  r ∈ sw.rows_of_night table night <-> sw.night_of r = night /\ r ∈ table.
Proof.
  unfold sw.rows_of_night.
  exact (list_elem_of_filter (fun r => sw.night_of r = night) table r).
Qed.

Lemma elem_of_longest_per_night table p :
  p ∈ sw.longest_per_night table
  <-> exists night r,
        sw.longest_block (sw.rows_of_night table night) = Some r
        /\ start_end r = p.
Proof.
  unfold sw.longest_per_night. rewrite list_elem_of_omap. split.
  - intros (night & _ & Hsel).
    destruct (sw.longest_block (sw.rows_of_night table night)) as [r|] eqn:Hr;
      [|discriminate].
    simpl in Hsel. injection Hsel as <-. exists night, r. split; [exact Hr|].
    reflexivity.
  - intros (night & r & Hr & <-). exists night. split.
    + apply elem_of_remove_dups.
      destruct (longest_block_Some _ _ Hr) as [Hin _].
      apply elem_of_rows_of_night in Hin as [<- Hin].
      rewrite map_as_fmap. apply list_elem_of_fmap. exists r.
      split; [reflexivity|exact Hin].
    + rewrite Hr. reflexivity.
Qed.

Lemma NoDup_fmap_inj {X Y : Type} (f : X -> Y) (l : list X) x y :
  NoDup (f <$> l) -> x ∈ l -> y ∈ l -> f x = f y -> x = y.
Proof.
  induction l as [|a l IH]; intros Hnd Hx Hy Hf; [inversion Hx|].
  rewrite fmap_cons in Hnd. apply NoDup_cons in Hnd as [Hna Hnd].
  apply elem_of_cons in Hx as [->|Hx], Hy as [->|Hy]; auto.
  - exfalso. apply Hna. rewrite Hf. apply list_elem_of_fmap. eauto.
  - exfalso. apply Hna. rewrite <- Hf. apply list_elem_of_fmap. eauto.
Qed.

Lemma filter_none {X : Type} (P : X -> Prop) `{!forall x, Decision (P x)}
    (l : list X) :
  (forall x, x ∈ l -> ~ P x) -> filter P l = [].
Proof.
  induction l as [|a l IH]; intros HP; [reflexivity|].
  rewrite filter_cons, decide_False by (apply HP, list_elem_of_here).
  apply IH. intros x Hx. apply HP, list_elem_of_further, Hx.
Qed.

Lemma filter_fmap {X Y : Type} (f : X -> Y) (P : Y -> Prop)
    `{!forall y, Decision (P y)} (l : list X) :
  filter P (f <$> l) = f <$> filter (fun x => P (f x)) l.
Proof.
  induction l as [|a l IH]; [reflexivity|].
  rewrite fmap_cons, !filter_cons, IH.
  destruct (decide (P (f a))); reflexivity.
Qed.

Lemma filter_unique {X : Type} (P : X -> Prop) `{!forall x, Decision (P x)}
    (l : list X) x0 :
  NoDup l -> x0 ∈ l -> (forall x, x ∈ l -> P x <-> x = x0) ->
  filter P l = [x0].
Proof.
  induction l as [|a l IH]; intros Hnd Hin HP; [inversion Hin|].
  apply NoDup_cons in Hnd as [Hna Hnd]. rewrite filter_cons.
  destruct (decide (P a)) as [HPa|HnPa].
  - assert (a = x0) as -> by (apply HP; [apply list_elem_of_here|exact HPa]).
    f_equal. apply filter_none. intros x Hx HPx.
    apply HP in HPx; [|apply list_elem_of_further, Hx]. congruence.
  - apply IH; [exact Hnd| |].
    + apply elem_of_cons in Hin as [->|Hin]; [|exact Hin].
      exfalso. apply HnPa. apply HP; [apply list_elem_of_here|reflexivity].
    + intros x Hx. apply HP. apply list_elem_of_further, Hx.
Qed.

(** A row of the table has its [(start, end)] in the per-night table exactly
    when it is the longest block of its night. *)
Lemma in_longest_per_night_iff table r night :
  NoDup (start_end <$> table) -> r ∈ table ->
  (bool_decide (start_end r ∈ sw.longest_per_night table) = true
   /\ sw.night_of r = night)
  <-> sw.longest_block (sw.rows_of_night table night) = Some r.
Proof.
  intros Hnd Hr. split.
  - intros [Hb Hn]. apply bool_decide_eq_true in Hb.
    apply elem_of_longest_per_night in Hb as (night' & r' & Hsel & Heq).
    destruct (longest_block_Some _ _ Hsel) as [Hin _].
    apply elem_of_rows_of_night in Hin as [Hn' Hin].
    assert (r' = r) as -> by exact (NoDup_fmap_inj _ _ _ _ Hnd Hin Hr Heq).
    assert (night' = night) as <- by congruence. exact Hsel.
  - intros Hsel. destruct (longest_block_Some _ _ Hsel) as [Hin _].
    apply elem_of_rows_of_night in Hin as [Hn _]. split; [|exact Hn].
    apply bool_decide_eq_true, elem_of_longest_per_night. eauto.
Qed.

(** C4.  For a block table whose rows have pairwise distinct (start, end),
    marked against the per-night longest-block table: the marked rows
    assigned to a night are exactly the one longest block of that night when
    the night has a block, and none otherwise; a row is marked if and only
    if it is the longest block of its night, so every other row is left
    false; the longest block has the maximum duration of its night and,
    among the blocks as long, the earliest start; the other columns of the
    table are unchanged. *)
Theorem mark_longest_per_night (table : list sleep_win) (night : Z * Z) :
  NoDup (map start_end table) ->
  let sleep_block := mark_longest table (sw.longest_per_night table) in
  map fst sleep_block = table
  /\ marked_in_night night sleep_block
     = match sw.longest_block (sw.rows_of_night table night) with
       | Some r => [(r, true)]
       | None => []
       end
  /\ (forall x, x ∈ sleep_block ->
        x.2 = true
        <-> sw.longest_block (sw.rows_of_night table (sw.night_of x.1))
            = Some x.1)
  /\ ((exists r, r ∈ table /\ sw.night_of r = night)
      <-> is_Some (sw.longest_block (sw.rows_of_night table night)))
  /\ forall r, sw.longest_block (sw.rows_of_night table night) = Some r ->
       r ∈ table /\ sw.night_of r = night
       /\ start_end r ∈ sw.longest_per_night table
       /\ forall r', r' ∈ table -> sw.night_of r' = night ->
            sw.win_duration r' <= sw.win_duration r
            /\ (sw.win_duration r' = sw.win_duration r
                -> start r <= start r').
Proof.
  intros Hnd sleep_block. unfold sleep_block. rewrite mark_longest_spec.
  rewrite map_as_fmap in Hnd.
  split; [|split; [|split; [|split]]].
  - rewrite !map_as_fmap, <- list_fmap_compose.
    rewrite <- (list_fmap_id table) at 2. apply list_fmap_ext.
    intros i r _. reflexivity.
  - unfold marked_in_night. rewrite map_as_fmap, filter_fmap. cbn [fst snd].
    destruct (sw.longest_block (sw.rows_of_night table night)) as [r0|]
      eqn:Hsel.
    + destruct (longest_block_Some _ _ Hsel) as [Hin _].
      apply elem_of_rows_of_night in Hin as [Hn0 Hin0].
      rewrite (filter_unique _ table r0).
      * cbn [fmap list_fmap]. f_equal. f_equal.
        apply bool_decide_eq_true, elem_of_longest_per_night. eauto.
      * exact (NoDup_fmap_1 _ _ Hnd).
      * exact Hin0.
      * intros r Hr.
        rewrite (in_longest_per_night_iff table r night Hnd Hr), Hsel.
        split; congruence.
    + rewrite filter_none; [reflexivity|]. intros r Hr HP.
      apply (in_longest_per_night_iff table r night Hnd Hr) in HP.
      congruence.
  - intros x Hx. rewrite map_as_fmap in Hx.
    apply list_elem_of_fmap in Hx as (r & -> & Hr). cbn [fst snd].
    rewrite <- (in_longest_per_night_iff table r (sw.night_of r) Hnd Hr).
    tauto.
  - split.
    + intros (r & Hr & Hn).
      destruct (sw.longest_block (sw.rows_of_night table night)) eqn:Hsel;
        [eauto|].
      apply longest_block_None in Hsel.
      assert (Hin : r ∈ sw.rows_of_night table night)
        by (apply elem_of_rows_of_night; auto).
      rewrite Hsel in Hin. inversion Hin.
    + intros [r Hsel]. destruct (longest_block_Some _ _ Hsel) as [Hin _].
      apply elem_of_rows_of_night in Hin as [Hn Hin]. eauto.
  - intros r Hsel. destruct (longest_block_Some _ _ Hsel) as [Hin Hmax].
    apply elem_of_rows_of_night in Hin as [Hn Hin].
    split; [exact Hin|]. split; [exact Hn|]. split.
    + apply elem_of_longest_per_night. eauto.
    + intros r' Hr' Hn'. apply Hmax. apply elem_of_rows_of_night. auto.
Qed.

Lemma mark_longest_per_night_witness :
  marked_in_night (0, 86400)
    (mark_longest
       [demo_win 0 60; demo_win 90 150; demo_win 200 260;
        mk_sleep_win 86500 86600 86400 172800 (24 # 1)]
       (sw.longest_per_night
          [demo_win 0 60; demo_win 90 150; demo_win 200 260;
           mk_sleep_win 86500 86600 86400 172800 (24 # 1)]))
  = [(demo_win 0 60, true)].
Proof.
  refine (proj1 (proj2 (mark_longest_per_night
    [demo_win 0 60; demo_win 90 150; demo_win 200 260;
     mk_sleep_win 86500 86600 86400 172800 (24 # 1)] (0, 86400) _))).
  refine (bool_decide_unpack _ _). vm_compute. exact I.
Defined.

(** ** Gap Merger *)

Lemma set_sleep_idemp e : sw.set_sleep (sw.set_sleep e) = sw.set_sleep e.
Proof. reflexivity. Qed.

Lemma existsb_Permutation {X : Type} (f : X -> bool) (l l' : list X) :
  l ≡ₚ l' -> existsb f l = existsb f l'.
Proof.
  induction 1 as [|x l l' _ IH|x y l|l l' l'' _ IH1 _ IH2]; simpl.
  - reflexivity.
  - rewrite IH. reflexivity.
  - rewrite !orb_assoc, (orb_comm (f y) (f x)). reflexivity.
  - rewrite IH1. exact IH2.
Qed.

(** Filling the gaps one after the other relabels an epoch exactly when it
    lies in one of them. *)
Lemma fill_gaps_single_pass my_df counter gap2fill :
  sw.fill_gaps my_df counter gap2fill
  = sw.fill_single_pass my_df counter gap2fill.
Proof.
  unfold sw.fill_gaps, sw.fill_single_pass. revert my_df.
  induction gap2fill as [|j gaps IH]; intros my_df; cbn [foldl].
  - apply list_eq. intros i. rewrite list_lookup_imap.
    destruct (my_df !! i); reflexivity.
  - rewrite IH. unfold sw.fill_gap. apply list_eq. intros i.
    rewrite !list_lookup_imap. destruct (my_df !! i) as [e|]; [|reflexivity].
    cbn [fmap option_fmap option_map existsb]. f_equal.
    destruct (sw.in_gap counter j i), (existsb _ gaps); reflexivity.
Qed.

Lemma elem_of_block_idxes keep counter j :
  j ∈ sw.block_idxes keep counter
  <-> exists b, counter !! j = Some b /\ keep j b = true.
Proof.
  unfold sw.block_idxes. rewrite list_elem_of_In, filter_In, <- list_elem_of_In.
  rewrite elem_of_seq. split.
  - intros [_ H]. destruct (counter !! j) as [b|]; [eauto | discriminate].
  - intros (b & Hb & Hk). rewrite Hb. split; [|exact Hk].
    apply lookup_lt_Some in Hb. lia.
Qed.

Lemma between_valid_spec valid j :
  sw.between_valid valid j = true
  <-> exists v1 v2, v1 ∈ valid /\ v2 ∈ valid /\ (v1 < j < v2)%nat.
Proof.
  unfold sw.between_valid. rewrite andb_true_iff, !existsb_exists. split.
  - intros [(v1 & H1 & L1) (v2 & H2 & L2)].
    apply Nat.ltb_lt in L1, L2. apply list_elem_of_In in H1, H2.
    exists v1, v2. auto.
  - intros (v1 & v2 & H1 & H2 & L1 & L2).
    split; [exists v1 | exists v2];
      rewrite <- list_elem_of_In, Nat.ltb_lt; auto.
Qed.

(** C6.  The Gap Merger does not depend on the order in which the gaps are
    filled: filling, in any order, the gaps found from the original blocks
    (a gap being a block that is not sleep or not worn, strictly between two
    valid blocks, of duration strictly below the threshold) gives the series
    in which exactly the epochs of those gaps are relabelled to sleep in one
    pass; timestamps and wear flags, and the length, are unchanged. *)
Theorem gap_merger_order_independent (min_duration gap_threshold : Z)
    (epoch_length : Z) (my_df : list epoch) (order : list nat) :
  let counter := sw.find_sleep_block_duration my_df in
  let valid := sw.find_valid_sleep_blocks_with min_duration counter
                 epoch_length in
  let gap2fill := sw.find_gaps2fill_with gap_threshold valid epoch_length
                    counter in
  order ≡ₚ gap2fill ->
  sw.fill_gaps my_df counter order
  = sw.merge_gaps min_duration gap_threshold epoch_length my_df
  /\ sw.merge_gaps min_duration gap_threshold epoch_length my_df
     = sw.fill_single_pass my_df counter gap2fill
  /\ (forall j, j ∈ gap2fill <->
        exists b, counter !! j = Some b
                  /\ sw.is_gap b = true
                  /\ (exists v1 v2, v1 ∈ valid /\ v2 ∈ valid
                                    /\ (v1 < j < v2)%nat)
                  /\ sw.duration epoch_length b < gap_threshold)
  /\ (forall i e, my_df !! i = Some e ->
        sw.merge_gaps min_duration gap_threshold epoch_length my_df !! i
        = Some (if existsb (fun j => sw.in_gap counter j i) gap2fill
                then mk_epoch (time e) (Some sw.SLEEP) (is_wear e) else e))
  /\ length (sw.merge_gaps min_duration gap_threshold epoch_length my_df)
     = length my_df.
Proof.
  intros counter valid gap2fill Hperm.
  assert (Hmerge : sw.merge_gaps min_duration gap_threshold epoch_length my_df
                   = sw.fill_single_pass my_df counter gap2fill).
  { unfold sw.merge_gaps. apply fill_gaps_single_pass. }
  split; [|split; [exact Hmerge|split; [|split]]].
  - rewrite Hmerge, fill_gaps_single_pass. unfold sw.fill_single_pass.
    apply imap_ext. intros i e _. cbn beta.
    rewrite (existsb_Permutation _ _ _ Hperm). reflexivity.
  - intros j. unfold gap2fill, sw.find_gaps2fill_with.
    rewrite elem_of_block_idxes. split.
    + intros (b & Hb & Hk).
      apply andb_true_iff in Hk as [Hk Hd].
      apply andb_true_iff in Hk as [Hg Hv].
      exists b. split; [exact Hb|]. split; [exact Hg|].
      split; [apply between_valid_spec, Hv | apply Z.ltb_lt, Hd].
    + intros (b & Hb & Hg & Hv & Hd). exists b. split; [exact Hb|].
      rewrite Hg. apply between_valid_spec in Hv. rewrite Hv.
      apply Z.ltb_lt in Hd. rewrite Hd. reflexivity.
  - intros i e He. rewrite Hmerge. unfold sw.fill_single_pass.
    rewrite list_lookup_imap, He. reflexivity.
  - rewrite Hmerge. unfold sw.fill_single_pass. apply length_imap.
Qed.

Lemma gap_merger_order_independent_witness :
  sw.fill_gaps flickering_night
    (sw.find_sleep_block_duration flickering_night) [3; 1]%nat
  = [ mk_epoch 0 (Some 1) true; mk_epoch 30 (Some 1) true;
      mk_epoch 60 (Some 1) true; mk_epoch 90 (Some 1) true;
      mk_epoch 120 (Some 1) true; mk_epoch 150 (Some 1) false;
      mk_epoch 180 (Some 1) true; mk_epoch 210 (Some 1) true ].
Proof.
  refine (eq_trans
    (proj1 (gap_merger_order_independent 30 90 30 flickering_night
              [3; 1]%nat _)) _).
  - vm_compute. apply perm_swap.
  - vm_compute. reflexivity.
Defined.

(** ** Configuration *)

Section configuration.

Context {A : Type}.
Variable predict : list A -> list Z.
Variable ssl_sleep_npy : string -> option (list Z).
Variable load_model : bool -> list A -> list Z.
Variable SLEEPNET_LABELS : Z -> option Z.
Context {counter_t : Type}.
Variable find_sleep_block_duration : list epoch -> counter_t.
Variable find_valid_sleep_blocks : counter_t -> Z -> list nat.
Variable find_gaps2fill : list nat -> Z -> counter_t -> list nat.
Variable fill_gaps : list epoch -> counter_t -> list nat -> list epoch.
Variable time_series2sleep_blocks :
  list epoch -> list (Z * Z) * list (Z * Z) * list Z * list Z * list Q.
Variable start_sleep_net :
  list A -> list Z -> string -> string -> string -> string
  -> list Z * list Z.

(** Once the saved predictions and the detector are given, the only
    field of the configuration that get_sleep_windows still reads is
    [force_run]. *)
Lemma get_sleep_windows_reads_force_run (args args' : Args)
    (data2model : list A) (times : list Z) (non_wear : list bool)
    (ssl_sleep : option (list Z)) :
  force_run args' = force_run args ->
  get_sleep_windows predict SLEEPNET_LABELS find_sleep_block_duration
    find_valid_sleep_blocks find_gaps2fill fill_gaps time_series2sleep_blocks
    data2model times non_wear args' ssl_sleep
  = get_sleep_windows predict SLEEPNET_LABELS find_sleep_block_duration
      find_valid_sleep_blocks find_gaps2fill fill_gaps
      time_series2sleep_blocks data2model times non_wear args ssl_sleep.
Proof.
  intros Hf. unfold get_sleep_windows, non_wear_fix. rewrite Hf. reflexivity.
Qed.

(** What get_sleep_windows reads from the configuration: the directory of
    the saved predictions, [force_download] for the detector, and
    [force_run]. *)
Lemma get_sleep_windows_on_disk_reads (args args' : Args)
    (data2model : list A) (times : list Z) (non_wear : list bool) :
  outdir args' = outdir args ->
  force_download args' = force_download args ->
  force_run args' = force_run args ->
  get_sleep_windows_on_disk ssl_sleep_npy load_model SLEEPNET_LABELS
    find_sleep_block_duration find_valid_sleep_blocks find_gaps2fill
    fill_gaps time_series2sleep_blocks data2model times non_wear args'
  = get_sleep_windows_on_disk ssl_sleep_npy load_model SLEEPNET_LABELS
      find_sleep_block_duration find_valid_sleep_blocks find_gaps2fill
      fill_gaps time_series2sleep_blocks data2model times non_wear args.
Proof.
  intros Ho Hd Hf. unfold get_sleep_windows_on_disk. rewrite Ho, Hd.
  unfold get_sleep_windows, non_wear_fix. rewrite Hf. reflexivity.
Qed.

(** C8, as the code has it.  The segmentation is called with the block
    table and the epoch duration, which is the constant 30 (seconds); no
    minimum-block duration and no gap-fill threshold is handed over and no
    field of the configuration reaches it.  Of the configuration,
    get_sleep_windows as a whole reads the output directory (where the
    saved predictions are), [force_download] and [force_run]: two
    configurations that agree on these three give the same result,
    whatever their other fields.  The module constant NON_WEAR_THRESHOLD
    is 3 (hours). *)
Theorem segmentation_takes_no_threshold (args args' : Args)
    (my_df : list epoch) (data2model : list A) (times : list Z)
    (non_wear : list bool) :
  outdir args' = outdir args ->
  force_download args' = force_download args ->
  force_run args' = force_run args ->
  non_wear_fix find_sleep_block_duration find_valid_sleep_blocks
    find_gaps2fill fill_gaps args my_df
  = fill_gaps my_df (find_sleep_block_duration my_df)
      (find_gaps2fill
         (find_valid_sleep_blocks (find_sleep_block_duration my_df) 30)
         30 (find_sleep_block_duration my_df))
  /\ non_wear_fix find_sleep_block_duration find_valid_sleep_blocks
       find_gaps2fill fill_gaps args' my_df
     = non_wear_fix find_sleep_block_duration find_valid_sleep_blocks
         find_gaps2fill fill_gaps args my_df
  /\ get_sleep_windows_on_disk ssl_sleep_npy load_model SLEEPNET_LABELS
       find_sleep_block_duration find_valid_sleep_blocks find_gaps2fill
       fill_gaps time_series2sleep_blocks data2model times non_wear args'
     = get_sleep_windows_on_disk ssl_sleep_npy load_model SLEEPNET_LABELS
         find_sleep_block_duration find_valid_sleep_blocks find_gaps2fill
         fill_gaps time_series2sleep_blocks data2model times non_wear args
  /\ NON_WEAR_THRESHOLD = 3.
Proof.
  intros Ho Hd Hf. split; [reflexivity|]. split; [reflexivity|].
  split; [|reflexivity].
  apply get_sleep_windows_on_disk_reads; assumption.
Qed.

End configuration.

Lemma segmentation_takes_no_threshold_witness :
  get_sleep_windows_on_disk sample_ssl_sleep_npy sample_load_model
    demo.SLEEPNET_LABELS sw.find_sleep_block_duration
    sw.find_valid_sleep_blocks sw.find_gaps2fill sw.fill_gaps
    demo.time_series2sleep_blocks [1; 1; 0; 1] [0; 30; 60; 90]
    [false; false; false; false] (other_args true)
  = get_sleep_windows_on_disk sample_ssl_sleep_npy sample_load_model
      demo.SLEEPNET_LABELS sw.find_sleep_block_duration
      sw.find_valid_sleep_blocks sw.find_gaps2fill sw.fill_gaps
      demo.time_series2sleep_blocks [1; 1; 0; 1] [0; 30; 60; 90]
      [false; false; false; false] (demo.args true 22).
Proof.
  exact (proj1 (proj2 (proj2
    (segmentation_takes_no_threshold sample_ssl_sleep_npy sample_load_model
       demo.SLEEPNET_LABELS sw.find_sleep_block_duration
       sw.find_valid_sleep_blocks sw.find_gaps2fill sw.fill_gaps
       demo.time_series2sleep_blocks (demo.args true 22) (other_args true)
       [] [1; 1; 0; 1] [0; 30; 60; 90] [false; false; false; false]
       eq_refl eq_refl eq_refl)))).
Defined.

(** Each of the three fields is read: on the sample directory listing and
    detectors, changing the output directory, [force_run] or
    [force_download] alone changes what get_sleep_windows returns. *)
Lemma get_sleep_windows_on_disk_three_reads :
  let run := get_sleep_windows_on_disk sample_ssl_sleep_npy
               sample_load_model demo.SLEEPNET_LABELS
               sw.find_sleep_block_duration sw.find_valid_sleep_blocks
               sw.find_gaps2fill sw.fill_gaps demo.time_series2sleep_blocks
               [1; 1; 0; 1] [0; 30; 60; 90]
               [false; false; false; false] in
  let a (outdir : string) (force_download force_run : bool) :=
    mk_Args "data/sample.cwa.gz" outdir force_download force_run false
      false "cpu" "" "" 22 "0" in
  let sample := "outputs/sample"%string in
  let other := "outputs/other"%string in
  run (a sample false false) <> run (a other false false)
  /\ run (a sample false false) <> run (a sample false true)
  /\ run (a sample false true) <> run (a sample true true).
Proof.
  cbv zeta. repeat split; vm_compute; discriminate.
Qed.

(** C8, as stated, fails: were the two thresholds parameters that the caller
    supplies, every pair of positive thresholds could be put into effect by
    some configuration; but no configuration makes the segmentation fill a
    30-second gap under a gap threshold of 90 seconds and leave it under a
    threshold of 30 seconds. *)
Lemma thresholds_not_consumed_from_caller :
  ~ (forall min_duration gap_threshold : Z,
       0 < min_duration -> 0 < gap_threshold ->
       exists args : Args, forall my_df : list epoch,
         non_wear_fix sw.find_sleep_block_duration sw.find_valid_sleep_blocks
           sw.find_gaps2fill sw.fill_gaps args my_df
         = sw.merge_gaps min_duration gap_threshold 30 my_df).
Proof.
  intros H.
  destruct (H 30 90 eq_refl eq_refl) as [a Ha].
  destruct (H 30 30 eq_refl eq_refl) as [a' Ha'].
  specialize (Ha flickering_night). specialize (Ha' flickering_night).
  unfold non_wear_fix in Ha, Ha'. rewrite Ha in Ha'.
  vm_compute in Ha'. discriminate.
Qed.

(** * Further properties *)

(** ** Stitching, whatever the alignment *)

Lemma setitem_mask_lookup_false {A : Type} (a a' : list A) mask v i :
  np.setitem_mask a mask v = Ok a' ->
  mask !! i = Some false -> a' !! i = a !! i.
Proof.
  unfold np.setitem_mask. destruct (decide _); [|discriminate].
  destruct v as [|y [|z v]].
  - destruct (decide _); [|discriminate]. intros [= <-].
    apply put_mask_lookup_false.
  - intros [= <-]. apply fill_mask_lookup_false.
  - destruct (decide _); [|discriminate]. intros [= <-].
    apply put_mask_lookup_false.
Qed.

Lemma setitem_mask_Ok_length {A : Type} (a a' : list A) mask v :
  np.setitem_mask a mask v = Ok a' -> length mask = length a.
Proof.
  unfold np.setitem_mask. destruct (decide _); [auto | discriminate].
Qed.

Section stitching_any.

Variables (all_sleep_wins_df : list sleep_win) (times : list Z).
Variables (y_pred test_pids : list Z).

Lemma fill_sleepnet_predictions_Ok_inv k ids out out' :
  fill_sleepnet_predictions (k :: ids) all_sleep_wins_df times y_pred
    test_pids out = Ok out' ->
  exists row mid,
    all_sleep_wins_df !! k = Some row
    /\ np.setitem_mask out (time_filter times (start row) (end_ row))
         (map Some (refined y_pred test_pids k)) = Ok mid
    /\ fill_sleepnet_predictions ids all_sleep_wins_df times y_pred
         test_pids mid = Ok out'.
Proof.
  cbn [fill_sleepnet_predictions]. unfold iloc.
  destruct (all_sleep_wins_df !! k) as [row|]; [|discriminate].
  cbn [mbind result_bind]. unfold np.getitem_mask.
  destruct (decide _); [|discriminate]. cbn [mbind result_bind].
  fold (refined y_pred test_pids k).
  destruct (np.setitem_mask out _ _) as [mid|] eqn:Hset; [|discriminate].
  cbn [mbind result_bind]. intros Hrest. exists row, mid. auto.
Qed.

(** A run that ends normally keeps the length of the array and every entry
    whose epoch lies in none of the blocks visited. *)
Lemma fill_sleepnet_predictions_Ok_frame ids :
  forall out out',
    fill_sleepnet_predictions ids all_sleep_wins_df times y_pred test_pids
      out = Ok out' ->
    length out' = length out
    /\ forall i t, times !! i = Some t ->
         (forall k row, k ∈ ids -> all_sleep_wins_df !! k = Some row ->
            ~ in_block row t) ->
         out' !! i = out !! i.
Proof.
  induction ids as [|k ids IH]; intros out out' Hrun.
  - injection Hrun as <-. auto.
  - apply fill_sleepnet_predictions_Ok_inv in Hrun
      as (row & mid & Hrow & Hset & Hrest).
    destruct (IH mid out' Hrest) as [Hlen Hkeep]. split.
    + rewrite Hlen. apply (setitem_mask_length _ _ _ _ Hset).
    + intros i t Ht Hnone. rewrite (Hkeep i t Ht).
      * apply (setitem_mask_lookup_false _ _ _ _ _ Hset).
        rewrite (lookup_time_filter _ _ _ _ Ht). f_equal.
        apply in_blockb_false.
        apply (Hnone k row); [apply list_elem_of_here | exact Hrow].
      * intros k' row' Hk'. apply Hnone, list_elem_of_further, Hk'.
Qed.

(** The entry of an epoch after a normal run is the one written when the
    last block covering it was visited. *)
Lemma fill_sleepnet_predictions_Ok_last l1 :
  forall k l2 row out out' i t,
    fill_sleepnet_predictions (l1 ++ k :: l2) all_sleep_wins_df times y_pred
      test_pids out = Ok out' ->
    all_sleep_wins_df !! k = Some row ->
    times !! i = Some t ->
    (forall k' row', k' ∈ l2 -> all_sleep_wins_df !! k' = Some row' ->
       ~ in_block row' t) ->
    exists mid mid',
      np.setitem_mask mid (time_filter times (start row) (end_ row))
        (map Some (refined y_pred test_pids k)) = Ok mid'
      /\ out' !! i = mid' !! i.
Proof.
  induction l1 as [|k1 l1 IH]; intros k l2 row out out' i t Hrun Hrow Ht Hafter.
  - apply fill_sleepnet_predictions_Ok_inv in Hrun
      as (row' & mid & Hrow' & Hset & Hrest).
    rewrite Hrow in Hrow'. injection Hrow' as <-.
    exists out, mid. split; [exact Hset|].
    apply (proj2 (fill_sleepnet_predictions_Ok_frame _ _ _ Hrest) i t Ht).
    exact Hafter.
  - apply fill_sleepnet_predictions_Ok_inv in Hrun
      as (row1 & mid1 & _ & _ & Hrest).
    exact (IH k l2 row mid1 out' i t Hrest Hrow Ht Hafter).
Qed.

End stitching_any.

(** X1.  Whenever the stitching loop ends normally, aligned or not, the
    stitched array is as long as the coarse one and every epoch that lies in
    no block of the table keeps its coarse label. *)
Theorem stitch_never_touches_uncovered (all_sleep_wins_df : list sleep_win)
    (times y_pred test_pids : list Z)
    (binary_y sleepnet_output : list (option Z)) :
  stitch all_sleep_wins_df times y_pred test_pids binary_y
  = Ok sleepnet_output ->
  length sleepnet_output = length binary_y
  /\ forall i t, times !! i = Some t ->
       (forall row, row ∈ all_sleep_wins_df -> ~ in_block row t) ->
       sleepnet_output !! i = binary_y !! i.
Proof.
  unfold stitch. intros Hrun.
  destruct (fill_sleepnet_predictions_Ok_frame _ _ _ _ _ _ _ Hrun)
    as [Hlen Hkeep].
  split; [exact Hlen|]. intros i t Ht Hnone. apply (Hkeep i t Ht).
  intros k row _ Hrow. apply Hnone, list_elem_of_lookup. eauto.
Qed.

Lemma stitch_never_touches_uncovered_witness :
  [Some 5; Some 5; Some 5; Some 0] !! 3%nat
  = [Some 1; Some 1; Some 1; Some 0] !! 3%nat.
Proof.
  refine (proj2 (stitch_never_touches_uncovered [demo_win 0 90]
                   [0; 30; 60; 90] [5] [0]
                   [Some 1; Some 1; Some 1; Some 0] _ eq_refl)
            3%nat 90 eq_refl _).
  intros row Hrow. apply list_elem_of_singleton in Hrow as ->.
  unfold in_block. simpl. lia.
Defined.

(** X2.  When the second model returns exactly one prediction for a block
    and the stitching loop ends normally, every epoch of that block that no
    later row of the table covers holds that one prediction, however many
    epochs the block has. *)
Theorem stitch_single_prediction_fills_block
    (all_sleep_wins_df : list sleep_win) (times y_pred test_pids : list Z)
    (binary_y sleepnet_output : list (option Z)) (k : nat) (row : sleep_win)
    (p : Z) :
  stitch all_sleep_wins_df times y_pred test_pids binary_y
  = Ok sleepnet_output ->
  all_sleep_wins_df !! k = Some row ->
  refined y_pred test_pids k = [p] ->
  forall i t, times !! i = Some t -> in_block row t ->
    (forall k' row', (k < k')%nat ->
       all_sleep_wins_df !! k' = Some row' -> ~ in_block row' t) ->
    sleepnet_output !! i = Some (Some p).
Proof.
  unfold stitch. intros Hrun Hrow Hone i t Ht Hin Hafter.
  pose proof (lookup_lt_Some _ _ _ Hrow) as Hk.
  rewrite (seq_split_at _ _ Hk) in Hrun.
  destruct (fill_sleepnet_predictions_Ok_last _ _ _ _ _ _ _ _ _ _ _ _
              Hrun Hrow Ht) as (mid & mid' & Hset & ->).
  - intros k' row' Hk'. apply elem_of_seq in Hk'. apply Hafter. lia.
  - rewrite Hone in Hset. pose proof (setitem_mask_Ok_length _ _ _ _ Hset).
    unfold np.setitem_mask in Hset.
    destruct (decide _); [|discriminate]. simpl in Hset.
    injection Hset as <-. apply fill_mask_lookup_true; [assumption|].
    rewrite (lookup_time_filter _ _ _ _ Ht). f_equal.
    apply in_blockb_spec, Hin.
Qed.

Lemma stitch_single_prediction_fills_block_witness :
  [Some 5; Some 5; Some 5; Some 0] !! 2%nat = Some (Some 5).
Proof.
  refine (stitch_single_prediction_fills_block [demo_win 0 90]
            [0; 30; 60; 90] [5] [0] [Some 1; Some 1; Some 1; Some 0] _
            0%nat (demo_win 0 90) 5 eq_refl eq_refl eq_refl
            2%nat 60 eq_refl _ _).
  - unfold in_block. simpl. lia.
  - intros [|k'] row' Hk' Hrow'; [lia | discriminate].
Defined.

(** ** The mapping of get_master_df and what the second model returns *)

Lemma concat_block_ids times table k0 :
  concat (imap (fun i => block_ids times (k0 + i)) table)
  = ids_from k0 (map (block_size times) table).
Proof.
  revert k0. induction table as [|row table IH]; intros k0; [reflexivity|].
  rewrite imap_cons. cbn [concat map ids_from]. rewrite Nat.add_0_r.
  unfold block_ids at 1. fold (block_size times row). f_equal.
  rewrite <- IH. f_equal. apply imap_ext. intros i x _. simpl.
  f_equal. lia.
Qed.

Lemma length_ids_from k0 sizes : length (ids_from k0 sizes) = sum_list sizes.
Proof.
  revert k0. induction sizes as [|n sizes IH]; intros k0; [reflexivity|].
  cbn [ids_from sum_list sum_list_with].
  rewrite length_app, length_replicate, IH. reflexivity.
Qed.

Lemma elem_of_ids_from k0 sizes p :
  p ∈ ids_from k0 sizes ->
  exists j n, p = Z.of_nat (k0 + j) /\ sizes !! j = Some n /\ (0 < n)%nat.
Proof.
  revert k0. induction sizes as [|n sizes IH]; intros k0 Hp; [inversion Hp|].
  cbn [ids_from] in Hp. apply elem_of_app in Hp as [Hp|Hp].
  - apply elem_of_replicate in Hp as [-> Hn].
    exists 0%nat, n. rewrite Nat.add_0_r. split; [reflexivity|].
    split; [reflexivity | lia].
  - destruct (IH _ Hp) as (j & m & -> & Hj & Hm).
    exists (S j), m. split; [f_equal; lia|]. split; [exact Hj | exact Hm].
Qed.

Lemma ids_from_sorted k0 sizes : StronglySorted Z.le (ids_from k0 sizes).
Proof.
  revert k0. induction sizes as [|n sizes IH]; intros k0; [constructor|].
  cbn [ids_from]. induction n as [|n IHn]; [apply IH|].
  cbn [replicate app]. constructor; [exact IHn|].
  apply Forall_forall. intros p Hp. apply elem_of_app in Hp as [Hp|Hp].
  - apply elem_of_replicate in Hp as [-> _]. lia.
  - apply elem_of_ids_from in Hp as (j & m & -> & _). lia.
Qed.

Lemma take_mask_app {A : Type} m1 m2 (a1 a2 : list A) :
  length m1 = length a1 ->
  np.take_mask (m1 ++ m2) (a1 ++ a2)
  = np.take_mask m1 a1 ++ np.take_mask m2 a2.
Proof.
  revert a1. induction m1 as [|b m1 IH]; intros [|x a1] Hl; simpl in *;
    try discriminate; [reflexivity|].
  rewrite IH by lia. destruct b; reflexivity.
Qed.

Lemma take_mask_eqb_none {A : Type} (l : list Z) (a : list A) k :
  (forall p, p ∈ l -> p <> k) ->
  np.take_mask (map (fun pid => pid =? k) l) a = [].
Proof.
  revert a. induction l as [|p l IH]; intros [|x a] Hne; try reflexivity.
  cbn [map np.take_mask].
  rewrite (proj2 (Z.eqb_neq p k)) by (apply Hne, list_elem_of_here).
  apply IH. intros q Hq. apply Hne, list_elem_of_further, Hq.
Qed.

Lemma take_mask_eqb_replicate {A : Type} n k (a : list A) :
  length a = n ->
  np.take_mask (map (fun pid => pid =? k) (replicate n k)) a = a.
Proof.
  revert a. induction n as [|n IH]; intros [|x a] Hl; simpl in *;
    try discriminate; [reflexivity|].
  rewrite Z.eqb_refl. f_equal. apply IH. lia.
Qed.

Lemma sum_list_cons (n : nat) (l : list nat) :
  sum_list (n :: l) = (n + sum_list l)%nat.
Proof. reflexivity. Qed.

(** The predictions that carry the id of block [k0 + j] are the segment of
    the prediction array that the block has in the mapping. *)
Lemma take_mask_ids_from {A : Type} sizes :
  forall k0 j n (y : list A),
    sizes !! j = Some n ->
    length y = sum_list sizes ->
    np.take_mask (map (fun pid => pid =? Z.of_nat (k0 + j))
                      (ids_from k0 sizes)) y
    = take n (drop (sum_list (take j sizes)) y).
Proof.
  induction sizes as [|n0 sizes IH]; intros k0 j n y Hj Hy; [discriminate|].
  cbn [ids_from] in *. rewrite sum_list_cons in Hy.
  rewrite <- (take_drop n0 y) at 1.
  rewrite map_app, take_mask_app
    by (rewrite length_map, length_replicate, length_take; lia).
  destruct j as [|j].
  - injection Hj as ->. rewrite Nat.add_0_r. cbn [take]. unfold sum_list at 1.
    cbn [sum_list_with drop].
    rewrite take_mask_eqb_replicate by (rewrite length_take; lia).
    rewrite take_mask_eqb_none; [apply app_nil_r|].
    intros p Hp. apply elem_of_ids_from in Hp as (i & m & -> & _). lia.
  - cbn [lookup list_lookup] in Hj.
    rewrite take_mask_eqb_none.
    + replace (k0 + S j)%nat with (S k0 + j)%nat by lia.
      rewrite (IH (S k0) j n (drop n0 y) Hj)
        by (rewrite length_drop; lia).
      cbn [take]. rewrite sum_list_cons, drop_drop. reflexivity.
    + intros p Hp. apply elem_of_replicate in Hp as [-> _]. lia.
Qed.

Lemma sum_list_take_lookup (sizes : list nat) j n :
  sizes !! j = Some n ->
  (sum_list (take j sizes) + n <= sum_list sizes)%nat.
Proof.
  revert j. induction sizes as [|m sizes IH]; intros [|j] Hj; simpl in *;
    try discriminate.
  - injection Hj as ->. lia.
  - specialize (IH j Hj). lia.
Qed.

Lemma get_master_df_ids {A : Type} block_time_df times (acc_array : list A)
    master_acc master_npids :
  length acc_array = length times ->
  get_master_df block_time_df times acc_array = Ok (master_acc, master_npids) ->
  master_npids = ids_from 0 (map (block_size times) block_time_df).
Proof.
  intros Hl. unfold get_master_df, iterrows.
  rewrite (get_master_df_loop_spec times acc_array block_time_df Hl 0 [] [])
    by reflexivity.
  intros [= _ <-]. exact (concat_block_ids times block_time_df 0).
Qed.

(** X3.  The block ids of the mapping are nondecreasing, and each of them
    is the row index of a block of the table that covers at least one
    epoch. *)
Theorem master_npids_sorted_row_indices {A : Type}
    (block_time_df : list sleep_win) (times : list Z) (acc_array : list A)
    (master_acc : list A) (master_npids : list Z) :
  length acc_array = length times ->
  get_master_df block_time_df times acc_array = Ok (master_acc, master_npids) ->
  StronglySorted Z.le master_npids
  /\ forall pid, pid ∈ master_npids ->
       exists k row, pid = Z.of_nat k
                     /\ block_time_df !! k = Some row
                     /\ (0 < block_size times row)%nat.
Proof.
  intros Hl Hrun. rewrite (get_master_df_ids _ _ _ _ _ Hl Hrun). split.
  - apply ids_from_sorted.
  - intros pid Hp. apply elem_of_ids_from in Hp as (j & n & -> & Hj & Hn).
    rewrite map_as_fmap, list_lookup_fmap in Hj.
    destruct (block_time_df !! j) as [row|] eqn:Hrow; [|discriminate].
    injection Hj as <-. exists j, row. auto.
Qed.

Lemma master_npids_sorted_row_indices_witness :
  StronglySorted Z.le [0; 0; 1].
Proof.
  exact (proj1 (master_npids_sorted_row_indices
                  [demo_win 30 90; demo_win 120 150] [0; 30; 60; 90; 120]
                  ["a"; "b"; "c"; "d"; "e"]%string ["b"; "c"; "e"]%string
                  [0; 0; 1] eq_refl eq_refl)).
Defined.

(** X4.  A second model that returns the ids of the mapping unchanged, with
    one prediction for each, is always aligned: stitching ends normally, and
    an epoch of a block (that no later row covers) receives the prediction
    at its own position in the mapping, the offset of the block plus the
    rank of the epoch in the block. *)
Theorem stitch_after_get_master_df {A : Type}
    (all_sleep_wins_df : list sleep_win) (times : list Z)
    (acc_array master_acc : list A) (master_npids y_pred : list Z)
    (binary_y : list (option Z)) :
  length acc_array = length times ->
  get_master_df all_sleep_wins_df times acc_array
  = Ok (master_acc, master_npids) ->
  length y_pred = length master_npids ->
  length binary_y = length times ->
  exists sleepnet_output,
    stitch all_sleep_wins_df times y_pred master_npids binary_y
    = Ok sleepnet_output
    /\ forall i t k row,
         times !! i = Some t ->
         all_sleep_wins_df !! k = Some row ->
         in_block row t ->
         (forall k' row', (k < k')%nat ->
            all_sleep_wins_df !! k' = Some row' -> ~ in_block row' t) ->
         exists p,
           y_pred !! (block_offset times all_sleep_wins_df k
                      + block_size (take i times) row)%nat = Some p
           /\ sleepnet_output !! i = Some (Some p).
Proof.
  intros Hl Hrun Hy Hb.
  pose proof (get_master_df_ids _ _ _ _ _ Hl Hrun) as Hids.
  assert (Hsum : length y_pred
                 = sum_list (map (block_size times) all_sleep_wins_df)).
  { rewrite Hy, Hids. apply length_ids_from. }
  assert (Hseg : forall k row, all_sleep_wins_df !! k = Some row ->
            refined y_pred master_npids k
            = take (block_size times row)
                (drop (block_offset times all_sleep_wins_df k) y_pred)).
  { intros k row Hrow. unfold refined, block_offset. rewrite Hids.
    rewrite <- take_map.
    apply (take_mask_ids_from _ 0 k (block_size times row) y_pred);
      [|exact Hsum].
    rewrite map_as_fmap, list_lookup_fmap, Hrow. reflexivity. }
  assert (Hfit : forall k row, all_sleep_wins_df !! k = Some row ->
            (block_offset times all_sleep_wins_df k + block_size times row
             <= length y_pred)%nat).
  { intros k row Hrow. rewrite Hsum. unfold block_offset.
    rewrite <- take_map. apply sum_list_take_lookup.
    rewrite map_as_fmap, list_lookup_fmap, Hrow. reflexivity. }
  destruct (fill_sleepnet_predictions_aligned all_sleep_wins_df times
              y_pred master_npids (eq_sym Hy)
              (seq 0 (length all_sleep_wins_df)))
    with (out := binary_y) as (out & Hok & _ & Hchar).
  - intros k Hk. apply elem_of_seq in Hk.
    destruct (lookup_lt_is_Some_2 all_sleep_wins_df k) as [row Hrow]; [lia|].
    exists row. split; [exact Hrow|].
    rewrite (Hseg k row Hrow), length_take, length_drop.
    specialize (Hfit k row Hrow). lia.
  - exact Hb.
  - exists out. split; [exact Hok|].
    intros i t k row Ht Hrow Hin Hafter.
    pose proof (lookup_lt_Some _ _ _ Hrow) as Hk.
    pose proof (block_size_take_lt times row i t Ht Hin) as Hrank.
    specialize (Hfit k row Hrow).
    destruct (lookup_lt_is_Some_2 y_pred
                (block_offset times all_sleep_wins_df k
                 + block_size (take i times) row)) as [p Hp]; [lia|].
    exists p. split; [exact Hp|].
    rewrite (proj2 (Hchar i t Ht) (seq 0 k) k
               (seq (S k) (length all_sleep_wins_df - S k)) row
               (seq_split_at _ _ Hk) Hrow Hin).
    + rewrite map_as_fmap, list_lookup_fmap, (Hseg k row Hrow).
      rewrite lookup_take_lt by exact Hrank.
      rewrite lookup_drop, Hp. reflexivity.
    + intros k' row' Hk'. apply elem_of_seq in Hk'. apply Hafter. lia.
Qed.

Lemma stitch_after_get_master_df_witness :
  exists sleepnet_output,
    stitch [demo_win 30 90; demo_win 120 150] [0; 30; 60; 90; 120]
      [2; 3; 4] [0; 0; 1] [Some 0; Some 1; Some 1; Some 0; Some 1]
    = Ok sleepnet_output.
Proof.
  destruct (stitch_after_get_master_df
              [demo_win 30 90; demo_win 120 150] [0; 30; 60; 90; 120]
              ["a"; "b"; "c"; "d"; "e"]%string ["b"; "c"; "e"]%string
              [0; 0; 1] [2; 3; 4]
              [Some 0; Some 1; Some 1; Some 0; Some 1]
              eq_refl eq_refl eq_refl eq_refl) as (out & Hok & _).
  exists out. exact Hok.
Defined.

Lemma length_concat_block_epochs {A : Type} times (acc_array : list A) table :
  length acc_array = length times ->
  length (concat (map (block_epochs times acc_array) table))
  = sum_list (map (block_size times) table).
Proof.
  intros Hl. induction table as [|row table IH]; [reflexivity|].
  cbn [map concat]. rewrite sum_list_cons, length_app, IH.
  rewrite (length_block_epochs times acc_array row Hl). reflexivity.
Qed.

Lemma get_master_df_lengths {A : Type} block_time_df times
    (acc_array : list A) master_acc master_npids :
  length acc_array = length times ->
  get_master_df block_time_df times acc_array = Ok (master_acc, master_npids) ->
  length master_acc = sum_list (map (block_size times) block_time_df)
  /\ length master_npids = sum_list (map (block_size times) block_time_df).
Proof.
  intros Hl Hrun. split.
  - revert Hrun. unfold get_master_df, iterrows.
    rewrite (get_master_df_loop_spec times acc_array block_time_df Hl 0 [] [])
      by reflexivity.
    intros [= <- _]. cbn [app]. apply length_concat_block_epochs, Hl.
  - rewrite (get_master_df_ids _ _ _ _ _ Hl Hrun). apply length_ids_from.
Qed.

Lemma sum_list_map_add {X : Type} (f g : X -> nat) (l : list X) :
  sum_list (map (fun x => (f x + g x)%nat) l)
  = (sum_list (map f l) + sum_list (map g l))%nat.
Proof.
  induction l as [|x l IH]; [reflexivity|].
  cbn [map]. rewrite !sum_list_cons, IH. lia.
Qed.

Lemma disjoint_blocks_tail row table :
  disjoint_blocks (row :: table) -> disjoint_blocks table.
Proof.
  intros Hd i j ri rj t Hij Hi Hj.
  apply (Hd (S i) (S j) ri rj t); [lia | exact Hi | exact Hj].
Qed.

(** An epoch is counted by at most one of the blocks of a table without
    overlap. *)
Lemma disjoint_blocks_cover_once table t :
  disjoint_blocks table ->
  (sum_list (map (fun row => if decide (in_block row t) then 1 else 0)%nat
                 table) <= 1)%nat.
Proof.
  induction table as [|row table IH]; intros Hd; [simpl; lia|].
  cbn [map]. rewrite sum_list_cons.
  destruct (decide (in_block row t)) as [Hin|Hout].
  - assert (Hzero : sum_list
              (map (fun row => if decide (in_block row t) then 1 else 0)%nat
                   table) = 0%nat).
    { assert (Hnone : forall r, r ∈ table -> ~ in_block r t).
      { intros r Hr. apply list_elem_of_lookup in Hr as [j Hj].
        apply (Hd 0%nat (S j) row r t); [lia | reflexivity | exact Hj
                                        | exact Hin]. }
      clear IH Hd Hin. induction table as [|r table IH]; [reflexivity|].
      cbn [map]. rewrite sum_list_cons.
      rewrite decide_False by (apply Hnone, list_elem_of_here).
      rewrite IH; [reflexivity|].
      intros r' Hr'. apply Hnone, list_elem_of_further, Hr'. }
    rewrite Hzero. lia.
  - specialize (IH (disjoint_blocks_tail _ _ Hd)). lia.
Qed.

Lemma disjoint_blocks_total_size table times :
  disjoint_blocks table ->
  (sum_list (map (block_size times) table) <= length times)%nat.
Proof.
  intros Hd. induction times as [|t times IH].
  - replace (map (block_size []) table) with (map (fun _ => 0%nat) table)
      by reflexivity.
    clear. induction table as [|r table IH]; [simpl; lia|].
    cbn [map]. rewrite sum_list_cons. cbn [length] in *. lia.
  - assert (Hsplit : map (block_size (t :: times)) table
              = map (fun row =>
                       ((if decide (in_block row t) then 1 else 0)
                        + block_size times row)%nat) table).
    { rewrite !map_as_fmap. apply list_fmap_ext. intros i row _.
      unfold block_size. rewrite filter_cons.
      destruct (decide (in_block row t)); reflexivity. }
    rewrite Hsplit, sum_list_map_add.
    pose proof (disjoint_blocks_cover_once table t Hd). cbn [length]. lia.
Qed.

(** X5.  For a block table without overlap, the mapping and the extracted
    data hold each epoch at most once: they are no longer than the
    series. *)
Theorem get_master_df_disjoint_bound {A : Type}
    (block_time_df : list sleep_win) (times : list Z) (acc_array : list A)
    (master_acc : list A) (master_npids : list Z) :
  disjoint_blocks block_time_df ->
  length acc_array = length times ->
  get_master_df block_time_df times acc_array = Ok (master_acc, master_npids) ->
  (length master_npids <= length times)%nat
  /\ (length master_acc <= length acc_array)%nat.
Proof.
  intros Hd Hl Hrun.
  destruct (get_master_df_lengths _ _ _ _ _ Hl Hrun) as [Ha Hn].
  pose proof (disjoint_blocks_total_size block_time_df times Hd).
  lia.
Qed.

Lemma get_master_df_disjoint_bound_witness :
  (length [0; 0; 1] <= length [0; 30; 60; 90; 120])%nat.
Proof.
  refine (proj1 (get_master_df_disjoint_bound
                   [demo_win 30 90; demo_win 120 150] [0; 30; 60; 90; 120]
                   ["a"; "b"; "c"; "d"; "e"]%string ["b"; "c"; "e"]%string
                   [0; 0; 1] _ eq_refl eq_refl)).
  intros [|[|i]] [|[|j]] ri rj t Hij Hi Hj; simpl in Hi, Hj;
    try discriminate; try lia;
    injection Hi as <-; injection Hj as <-; unfold in_block; simpl; lia.
Defined.

(** ** get_sleep_windows: what a normal return guarantees *)

Lemma vectorize_get_Ok get a out :
  np.vectorize_get get a = Ok out -> a <> [] /\ out = map get a.
Proof.
  unfold np.vectorize_get. destruct a as [|x a]; [discriminate|].
  destruct (get x); [destruct (forallb _ _)|]; intros [= <-]; auto.
Qed.

Lemma get_master_df_loop_same_length {A : Type} rows times
    (acc_array : list A) :
  forall macc mnp master_acc master_npids,
    length macc = length mnp ->
    get_master_df_loop rows times acc_array macc mnp
    = Ok (master_acc, master_npids) ->
    length master_acc = length master_npids.
Proof.
  induction rows as [|[index row] rows IH];
    intros macc mnp master_acc master_npids Hl;
    cbn [get_master_df_loop].
  - intros [= <- <-]. exact Hl.
  - unfold np.getitem_mask.
    destruct (decide (length (time_filter _ _ _) = _)) as [Hm|];
      [|discriminate].
    cbn [mbind result_bind].
    assert (Hnew : length (np.take_mask
                             (time_filter times (start row) (end_ row))
                             acc_array)
                   = length (replicate
                               (np.count_nonzero
                                  (time_filter times (start row) (end_ row)))
                               (Z.of_nat index))).
    { rewrite length_replicate. apply length_take_mask, Hm. }
    destruct (decide _); apply IH; [exact Hnew|].
    rewrite !length_app. lia.
Qed.

Section returns.

Context {A : Type}.
Variable predict : list A -> list Z.
Variable SLEEPNET_LABELS : Z -> option Z.
Context {counter_t : Type}.
Variable find_sleep_block_duration : list epoch -> counter_t.
Variable find_valid_sleep_blocks : counter_t -> Z -> list nat.
Variable find_gaps2fill : list nat -> Z -> counter_t -> list nat.
Variable fill_gaps : list epoch -> counter_t -> list nat -> list epoch.
Variable time_series2sleep_blocks :
  list epoch -> list (Z * Z) * list (Z * Z) * list Z * list Z * list Q.
Variable start_sleep_net :
  list A -> list Z -> string -> string -> string -> string
  -> list Z * list Z.

(** The steps a normal return went through. *)
Lemma get_sleep_windows_inv (args : Args) (data2model : list A)
    (times : list Z) (non_wear : list bool) (ssl_sleep : option (list Z))
    (r : sleep_windows_result A) :
  get_sleep_windows predict SLEEPNET_LABELS find_sleep_block_duration
    find_valid_sleep_blocks find_gaps2fill fill_gaps time_series2sleep_blocks
    data2model times non_wear args ssl_sleep = Ok r ->
  exists worn sleep_prediction,
    np.getitem_mask data2model (map negb non_wear) = Ok worn
    /\ match ssl_sleep with
       | Some saved =>
           if force_run args then
             fresh_sleep_prediction times non_wear (predict worn)
           else Ok saved
       | None => fresh_sleep_prediction times non_wear (predict worn)
       end = Ok sleep_prediction
    /\ np.vectorize_get SLEEPNET_LABELS sleep_prediction = Ok (binary_y r)
    /\ length times = length (binary_y r)
    /\ get_master_df (all_sleep_wins_df r) times data2model
       = Ok (master_acc r, master_npids r).
Proof.
  unfold get_sleep_windows.
  destruct (np.getitem_mask data2model _) as [d|]; [|discriminate].
  cbn [mbind result_bind].
  set (sp0 := match ssl_sleep with
              | Some saved =>
                  if force_run args then
                    fresh_sleep_prediction times non_wear (predict d)
                  else Ok saved
              | None => fresh_sleep_prediction times non_wear (predict d)
              end).
  destruct sp0 as [sp|] eqn:Hsp; [|discriminate]. cbn [mbind result_bind].
  destruct (np.vectorize_get _ sp) as [by_|] eqn:Hv; [|discriminate].
  cbn [mbind result_bind].
  destruct (make_my_df times by_ _) as [df|] eqn:Hdf; [|discriminate].
  cbn [mbind result_bind].
  destruct (time_series2sleep_blocks _) as [[[[wins long] istart] iend] wear].
  destruct (make_all_sleep_wins_df _ _ _ _) as [table|]; [|discriminate].
  cbn [mbind result_bind].
  destruct (get_master_df table times data2model) as [[macc mnp]|] eqn:Hm;
    [|discriminate].
  cbn [mbind result_bind]. intros [= <-].
  cbn [binary_y all_sleep_wins_df master_acc master_npids].
  exists d, sp. split; [reflexivity|]. split; [exact Hsp|].
  split; [exact Hv|]. split; [|exact Hm].
  unfold make_my_df in Hdf.
  destruct (decide _) as [[Hl _]|]; [exact Hl | discriminate].
Qed.

Lemma get_sleep_windows_needs_epochs (args : Args) (data2model : list A)
    (times : list Z) (non_wear : list bool) (ssl_sleep : option (list Z))
    (r : sleep_windows_result A) :
  get_sleep_windows predict SLEEPNET_LABELS find_sleep_block_duration
    find_valid_sleep_blocks find_gaps2fill fill_gaps time_series2sleep_blocks
    data2model times non_wear args ssl_sleep = Ok r ->
  times <> [].
Proof.
  intros Hr.
  destruct (get_sleep_windows_inv _ _ _ _ _ _ Hr)
    as (d & sp & _ & _ & Hv & Hlen & _).
  apply vectorize_get_Ok in Hv as [Hne Hby].
  intros ->. rewrite Hby, length_map in Hlen.
  destruct sp; [contradiction | discriminate].
Qed.

(** X7.  Whenever get_sleep_windows returns, the series is not empty, the
    non-wear flags are as many as the model inputs, there is one coarse
    label per epoch, and the mapping has one block id per extracted model
    input. *)
Theorem get_sleep_windows_returns_consistent (args : Args)
    (data2model : list A) (times : list Z) (non_wear : list bool)
    (ssl_sleep : option (list Z)) (r : sleep_windows_result A) :
  get_sleep_windows predict SLEEPNET_LABELS find_sleep_block_duration
    find_valid_sleep_blocks find_gaps2fill fill_gaps time_series2sleep_blocks
    data2model times non_wear args ssl_sleep = Ok r ->
  times <> []
  /\ length non_wear = length data2model
  /\ length (binary_y r) = length times
  /\ length (master_acc r) = length (master_npids r).
Proof.
  intros Hr.
  destruct (get_sleep_windows_inv _ _ _ _ _ _ Hr)
    as (d & sp & Hd & _ & Hv & Hlen & Hm).
  apply vectorize_get_Ok in Hv as [Hne Hby].
  split; [|split; [|split]].
  - exact (get_sleep_windows_needs_epochs _ _ _ _ _ _ Hr).
  - unfold np.getitem_mask in Hd.
    destruct (decide _) as [Hl|]; [|discriminate].
    rewrite length_map in Hl. exact Hl.
  - symmetry. exact Hlen.
  - unfold get_master_df in Hm.
    exact (get_master_df_loop_same_length _ _ _ [] [] _ _ (eq_refl 0%nat) Hm).
Qed.

(** On a series without epochs, predictions that get_sleep_windows computes
    and saves are an empty array. *)
Lemma ssl_sleep_after_empty_series (args : Args) (data2model : list A)
    (non_wear : list bool) (ssl_sleep : option (list Z)) :
  ssl_sleep_after predict data2model [] non_wear args ssl_sleep = ssl_sleep
  \/ ssl_sleep_after predict data2model [] non_wear args ssl_sleep
     = Some [].
Proof.
  assert (Hfresh : forall v sp,
            fresh_sleep_prediction [] non_wear v = Ok sp -> sp = []).
  { intros v sp H. apply setitem_mask_length in H.
    destruct sp; [reflexivity | discriminate]. }
  unfold ssl_sleep_after.
  destruct (np.getitem_mask _ _) as [d|]; [|left; reflexivity].
  destruct ssl_sleep as [saved|]; [destruct (force_run args)|];
    try (left; reflexivity);
    destruct (fresh_sleep_prediction _ _ _) as [sp|] eqn:Hsp;
    try (left; reflexivity);
    right; rewrite (Hfresh _ _ Hsp); reflexivity.
Qed.

(** X8.  On a series without epochs get_sleep_windows raises, whatever the
    configuration and the saved predictions, and main ends with that
    exception without reaching the test of line 348: it prints none of the
    messages saying that no sleep window was detected and does not run the
    second model.  What get_sleep_windows may have done before raising is
    to save the predictions it computed (after printing their shape and
    their counts): ssl_sleep.npy is then as it was or holds an empty
    array. *)
Theorem main_raises_on_empty_series (args : Args) (data2model : list A)
    (non_wear : list bool) (ssl_sleep : option (list Z)) :
  exists e,
    get_sleep_windows predict SLEEPNET_LABELS find_sleep_block_duration
      find_valid_sleep_blocks find_gaps2fill fill_gaps
      time_series2sleep_blocks data2model [] non_wear args ssl_sleep
    = Raise e
    /\ (main predict SLEEPNET_LABELS find_sleep_block_duration
          find_valid_sleep_blocks find_gaps2fill fill_gaps
          time_series2sleep_blocks start_sleep_net args data2model []
          non_wear ssl_sleep).2
       = Raised e
    /\ ~ (start_sleep_net_call
          ∈ (main predict SLEEPNET_LABELS find_sleep_block_duration
               find_valid_sleep_blocks find_gaps2fill fill_gaps
               time_series2sleep_blocks start_sleep_net args data2model []
               non_wear ssl_sleep).1)
    /\ (forall ev, ev ∈ no_sleep_messages ->
          ~ (ev ∈ (main predict SLEEPNET_LABELS find_sleep_block_duration
                     find_valid_sleep_blocks find_gaps2fill fill_gaps
                     time_series2sleep_blocks start_sleep_net args
                     data2model [] non_wear ssl_sleep).1))
    /\ (ssl_sleep_after predict data2model [] non_wear args ssl_sleep
        = ssl_sleep
        \/ ssl_sleep_after predict data2model [] non_wear args ssl_sleep
           = Some []).
Proof.
  destruct (get_sleep_windows predict SLEEPNET_LABELS
              find_sleep_block_duration find_valid_sleep_blocks
              find_gaps2fill fill_gaps time_series2sleep_blocks data2model
              [] non_wear args ssl_sleep) as [r|e] eqn:Hr.
  - exfalso.
    apply (get_sleep_windows_needs_epochs _ _ _ _ _ _ Hr). reflexivity.
  - exists e. split; [reflexivity|]. unfold main. rewrite Hr.
    cbn [fst snd]. split; [reflexivity|].
    split; [rewrite elem_of_nil; tauto|].
    split; [intros ev _; rewrite elem_of_nil; tauto|].
    apply ssl_sleep_after_empty_series.
Qed.

End returns.

Lemma get_sleep_windows_returns_consistent_witness :
  exists r,
    demo.get_sleep_windows (demo.args false 22) [1; 1; 0; 1] [0; 30; 60; 90]
      [false; false; false; false] None = Ok r
    /\ length (binary_y r) = length [0; 30; 60; 90]
    /\ length (master_acc r) = length (master_npids r).
Proof.
  eexists. split; [vm_compute; reflexivity|].
  refine (proj2 (proj2 (get_sleep_windows_returns_consistent demo.predict
            demo.SLEEPNET_LABELS sw.find_sleep_block_duration
            sw.find_valid_sleep_blocks sw.find_gaps2fill sw.fill_gaps
            demo.time_series2sleep_blocks (demo.args false 22) [1; 1; 0; 1]
            [0; 30; 60; 90] [false; false; false; false] None _ _))).
  vm_compute. reflexivity.
Defined.

Lemma setitem_mask_aligned_or_not_lookup_false {A : Type} (a a' : list A)
    (non_wear : list bool) v i :
  np.setitem_mask a (map negb non_wear) v = Ok a' ->
  non_wear !! i = Some true -> a' !! i = a !! i.
Proof.
  intros Hset Hi. apply (setitem_mask_lookup_false _ _ _ _ _ Hset).
  apply (lookup_map_negb _ _ true), Hi.
Qed.

Section caches.

Context {A : Type}.
Variable SLEEPNET_LABELS : Z -> option Z.
Context {counter_t : Type}.
Variable find_sleep_block_duration : list epoch -> counter_t.
Variable find_valid_sleep_blocks : counter_t -> Z -> list nat.
Variable find_gaps2fill : list nat -> Z -> counter_t -> list nat.
Variable fill_gaps : list epoch -> counter_t -> list nat -> list epoch.
Variable time_series2sleep_blocks :
  list epoch -> list (Z * Z) * list (Z * Z) * list Z * list Z * list Q.

(** X9.  When ssl_sleep.npy exists and force_run is not set, the coarse
    classifier has no influence: get_sleep_windows gives the same result
    for any two classifiers, and the coarse labels it returns are the table
    entries of the saved predictions. *)
Theorem get_sleep_windows_cache_hit (predict predict' : list A -> list Z)
    (args : Args) (data2model : list A) (times : list Z)
    (non_wear : list bool) (saved : list Z) :
  force_run args = false ->
  get_sleep_windows predict SLEEPNET_LABELS find_sleep_block_duration
    find_valid_sleep_blocks find_gaps2fill fill_gaps time_series2sleep_blocks
    data2model times non_wear args (Some saved)
  = get_sleep_windows predict' SLEEPNET_LABELS find_sleep_block_duration
      find_valid_sleep_blocks find_gaps2fill fill_gaps
      time_series2sleep_blocks data2model times non_wear args (Some saved)
  /\ forall r,
       get_sleep_windows predict SLEEPNET_LABELS find_sleep_block_duration
         find_valid_sleep_blocks find_gaps2fill fill_gaps
         time_series2sleep_blocks data2model times non_wear args (Some saved)
       = Ok r ->
       binary_y r = map SLEEPNET_LABELS saved
       /\ length saved = length times.
Proof.
  intros Hf. split.
  - unfold get_sleep_windows. rewrite Hf.
    destruct (np.getitem_mask data2model _); reflexivity.
  - intros r Hr.
    destruct (get_sleep_windows_inv _ _ _ _ _ _ _ _ _ _ _ _ _ Hr)
      as (d & sp & _ & Hsp & Hv & Hlen & _).
    rewrite Hf in Hsp. injection Hsp as <-.
    apply vectorize_get_Ok in Hv as [_ Hby]. split; [exact Hby|].
    rewrite Hlen, Hby, length_map. reflexivity.
Qed.

(** X10.  When the coarse predictions are computed (no ssl_sleep.npy, or
    force_run) and get_sleep_windows returns, the coarse label of every
    epoch flagged non-wear is the table entry of the sentinel -1, whatever
    the classifier predicted. *)
Theorem get_sleep_windows_non_wear_label (predict : list A -> list Z)
    (args : Args) (data2model : list A) (times : list Z)
    (non_wear : list bool) (ssl_sleep : option (list Z))
    (r : sleep_windows_result A) :
  ssl_sleep = None \/ force_run args = true ->
  get_sleep_windows predict SLEEPNET_LABELS find_sleep_block_duration
    find_valid_sleep_blocks find_gaps2fill fill_gaps time_series2sleep_blocks
    data2model times non_wear args ssl_sleep = Ok r ->
  forall i, non_wear !! i = Some true ->
    binary_y r !! i = Some (SLEEPNET_LABELS NON_WEAR_PREDICTION_FLAG).
Proof.
  intros Hfresh Hr i Hi.
  destruct (get_sleep_windows_inv _ _ _ _ _ _ _ _ _ _ _ _ _ Hr)
    as (d & sp & _ & Hsp & Hv & Hlen & _).
  assert (Hset : fresh_sleep_prediction times non_wear (predict d) = Ok sp).
  { destruct Hfresh as [-> | Hf]; [exact Hsp|].
    destruct ssl_sleep; [rewrite Hf in Hsp|]; exact Hsp. }
  apply vectorize_get_Ok in Hv as [_ Hby].
  unfold fresh_sleep_prediction in Hset.
  pose proof (setitem_mask_Ok_length _ _ _ _ Hset) as Hm.
  rewrite length_map, length_replicate in Hm.
  rewrite Hby, map_as_fmap, list_lookup_fmap.
  rewrite (setitem_mask_aligned_or_not_lookup_false _ _ _ _ _ Hset Hi).
  rewrite lookup_replicate_2 by (apply lookup_lt_Some in Hi; lia).
  reflexivity.
Qed.

End caches.

Lemma get_sleep_windows_cache_hit_witness :
  demo.get_sleep_windows (demo.args false 22) [1; 1; 0; 1] [0; 30; 60; 90]
    [false; false; false; false] (Some [0; 0; 1; 1])
  = get_sleep_windows (fun x => map (fun _ => 0) x) demo.SLEEPNET_LABELS
      sw.find_sleep_block_duration sw.find_valid_sleep_blocks
      sw.find_gaps2fill sw.fill_gaps demo.time_series2sleep_blocks
      [1; 1; 0; 1] [0; 30; 60; 90] [false; false; false; false]
      (demo.args false 22) (Some [0; 0; 1; 1]).
Proof.
  exact (proj1 (get_sleep_windows_cache_hit demo.SLEEPNET_LABELS
                  sw.find_sleep_block_duration sw.find_valid_sleep_blocks
                  sw.find_gaps2fill sw.fill_gaps
                  demo.time_series2sleep_blocks demo.predict
                  (fun x => map (fun _ => 0) x) (demo.args false 22)
                  [1; 1; 0; 1] [0; 30; 60; 90]
                  [false; false; false; false] [0; 0; 1; 1] eq_refl)).
Defined.

Lemma get_sleep_windows_non_wear_label_witness :
  [Some 1; Some (-1); Some 0; Some 1] !! 1%nat
  = Some (demo.SLEEPNET_LABELS NON_WEAR_PREDICTION_FLAG).
Proof.
  refine (get_sleep_windows_non_wear_label demo.SLEEPNET_LABELS
            sw.find_sleep_block_duration sw.find_valid_sleep_blocks
            sw.find_gaps2fill sw.fill_gaps demo.time_series2sleep_blocks
            demo.predict (demo.args false 22) [1; 1; 0; 1] [0; 30; 60; 90]
            [false; true; false; false] None
            (mk_sleep_windows_result [Some 1; Some (-1); Some 0; Some 1]
               _ _ _ _)
            (or_introl eq_refl) _ 1%nat eq_refl).
  vm_compute. reflexivity.
Defined.

(** ** main: how a run can end *)

Section runs.

Context {A : Type}.
Variable predict : list A -> list Z.
Variable SLEEPNET_LABELS : Z -> option Z.
Context {counter_t : Type}.
Variable find_sleep_block_duration : list epoch -> counter_t.
Variable find_valid_sleep_blocks : counter_t -> Z -> list nat.
Variable find_gaps2fill : list nat -> Z -> counter_t -> list nat.
Variable fill_gaps : list epoch -> counter_t -> list nat -> list epoch.
Variable time_series2sleep_blocks :
  list epoch -> list (Z * Z) * list (Z * Z) * list Z * list Z * list Q.
Variable start_sleep_net :
  list A -> list Z -> string -> string -> string -> string
  -> list Z * list Z.

(** The four ways through main. *)
Lemma main_inv (args : Args) (data2model : list A) (times : list Z)
    (non_wear : list bool) (ssl_sleep : option (list Z)) trace out :
  main predict SLEEPNET_LABELS find_sleep_block_duration
    find_valid_sleep_blocks find_gaps2fill fill_gaps time_series2sleep_blocks
    start_sleep_net args data2model times non_wear ssl_sleep = (trace, out) ->
  (exists e,
     get_sleep_windows predict SLEEPNET_LABELS find_sleep_block_duration
       find_valid_sleep_blocks find_gaps2fill fill_gaps
       time_series2sleep_blocks data2model times non_wear args ssl_sleep
     = Raise e
     /\ trace = [] /\ out = Raised e)
  \/ exists r,
       get_sleep_windows predict SLEEPNET_LABELS find_sleep_block_duration
         find_valid_sleep_blocks find_gaps2fill fill_gaps
         time_series2sleep_blocks data2model times non_wear args ssl_sleep
       = Ok r
       /\ ((master_npids r = [] /\ trace = no_sleep_messages /\ out = Exited)
           \/ exists y_pred test_pids,
                master_npids r <> []
                /\ start_sleep_net (master_acc r) (master_npids r)
                     (outdir args) (model_weight_path args)
                     (local_repo_path args) (pytorch_device args)
                   = (y_pred, test_pids)
                /\ ((exists e,
                       stitch (all_sleep_wins_df r) times y_pred test_pids
                         (binary_y r) = Raise e
                       /\ trace = [start_sleep_net_call] /\ out = Raised e)
                    \/ exists sleepnet_output,
                         stitch (all_sleep_wins_df r) times y_pred test_pids
                           (binary_y r) = Ok sleepnet_output
                         /\ trace
                            = start_sleep_net_call :: report_messages
                              ++ [ summarize_daily_sleep_call (min_wear args);
                                   print "Processing completed successfully!";
                                   print "Final memory cleanup..." ]
                         /\ out
                            = Returned sleepnet_output
                                (mark_longest (all_sleep_wins_df r)
                                   (sleep_wins_long_per_day_df r)))).
Proof.
  unfold main.
  destruct (get_sleep_windows _ _ _ _ _ _ _ _ _ _ _ _) as [r|e].
  - destruct (decide _) as [Hz|Hnz].
    + intros [= <- <-]. right. exists r. split; [reflexivity|]. left.
      split; [|auto]. destruct (master_npids r); [reflexivity|].
      simpl in Hz. lia.
    + destruct (start_sleep_net _ _ _ _ _ _) as [y_pred test_pids] eqn:Hnet.
      assert (Hne : master_npids r <> []).
      { intros H. apply Hnz. rewrite H. simpl. lia. }
      destruct (stitch _ _ _ _ _) as [so|e] eqn:Hst; intros [= <- <-];
        right; exists r; (split; [reflexivity|]); right;
        exists y_pred, test_pids; (split; [exact Hne|]);
        (split; [exact Hnet|]).
      * right. exists so. auto.
      * left. exists e. auto.
  - intros [= <- <-]. left. exists e. auto.
Qed.


(** X12.  A run that returns has run the second model on a non-empty
    mapping; the raw_label column it writes has one entry per epoch, the
    entries of the epochs outside every block being the coarse labels, and
    the sleep block table it writes has the rows of the table of
    get_sleep_windows, in order, each with its flag. *)
Theorem main_returned_outputs (args : Args) (data2model : list A)
    (times : list Z) (non_wear : list bool) (ssl_sleep : option (list Z))
    trace raw_label sleep_block :
  main predict SLEEPNET_LABELS find_sleep_block_duration
    find_valid_sleep_blocks find_gaps2fill fill_gaps time_series2sleep_blocks
    start_sleep_net args data2model times non_wear ssl_sleep
  = (trace, Returned raw_label sleep_block) ->
  exists r,
    get_sleep_windows predict SLEEPNET_LABELS find_sleep_block_duration
      find_valid_sleep_blocks find_gaps2fill fill_gaps
      time_series2sleep_blocks data2model times non_wear args ssl_sleep
    = Ok r
    /\ master_npids r <> []
    /\ length raw_label = length times
    /\ (forall i t, times !! i = Some t ->
          (forall row, row ∈ all_sleep_wins_df r -> ~ in_block row t) ->
          raw_label !! i = binary_y r !! i)
    /\ map fst sleep_block = all_sleep_wins_df r
    /\ head trace = Some start_sleep_net_call
    /\ to_csv "predictions.csv" ∈ trace
    /\ to_csv "sleep_block.csv" ∈ trace.
Proof.
  intros Hrun.
  apply main_inv in Hrun
    as [(e' & _ & _ & [=])
       |(r & Hr & [(_ & _ & [=])
                  |(y & tp & Hne & _ &
                    [(e' & _ & _ & [=])|(so & Hst & -> & [= -> ->])])])].
  exists r. split; [exact Hr|]. split; [exact Hne|].
  destruct (fill_sleepnet_predictions_Ok_frame _ _ _ _ _ _ _ Hst)
    as [Hlen Hkeep].
  destruct (get_sleep_windows_inv _ _ _ _ _ _ _ _ _ _ _ _ _ Hr)
    as (_ & _ & _ & _ & _ & Hby & _).
  split; [rewrite Hlen; symmetry; exact Hby|].
  split.
  { intros i t Ht Hnone. apply (Hkeep i t Ht).
    intros k row _ Hrow. apply Hnone, list_elem_of_lookup. eauto. }
  split.
  { rewrite mark_longest_spec, !map_as_fmap, <- list_fmap_compose.
    rewrite <- (list_fmap_id (all_sleep_wins_df r)) at 2.
    apply list_fmap_ext. intros i x _. reflexivity. }
  split; [reflexivity|].
  split; apply list_elem_of_In; vm_compute; tauto.
Qed.

(** X13.  The second model is run exactly when get_sleep_windows returns
    a mapping that is not empty, and main leaves through exit() exactly
    when it returns an empty one. *)
Theorem main_runs_second_model_iff (args : Args) (data2model : list A)
    (times : list Z) (non_wear : list bool) (ssl_sleep : option (list Z)) :
  let run :=
    main predict SLEEPNET_LABELS find_sleep_block_duration
      find_valid_sleep_blocks find_gaps2fill fill_gaps
      time_series2sleep_blocks start_sleep_net args data2model times
      non_wear ssl_sleep in
  let returned :=
    get_sleep_windows predict SLEEPNET_LABELS find_sleep_block_duration
      find_valid_sleep_blocks find_gaps2fill fill_gaps
      time_series2sleep_blocks data2model times non_wear args ssl_sleep in
  (start_sleep_net_call ∈ run.1
   <-> exists r, returned = Ok r /\ master_npids r <> [])
  /\ (run.2 = Exited <-> exists r, returned = Ok r /\ master_npids r = []).
Proof.
  intros run returned. subst run returned.
  destruct (main _ _ _ _ _ _ _ _ _ _ _ _ _) as [trace out] eqn:Hrun.
  cbn [fst snd].
  apply main_inv in Hrun
    as [(e' & Hr & -> & ->)
       |(r & Hr & [(Hz & -> & ->)
                  |(y & tp & Hne & _ &
                    [(e' & _ & -> & ->)|(so & _ & -> & ->)])])];
    rewrite Hr; split.
  - split; [intros H; inversion H | intros (r & [=] & _)].
  - split; [discriminate | intros (r & [=] & _)].
  - split; [|intros (r' & [= <-] & H); contradiction].
    intros H. apply list_elem_of_In in H. cbn in H. intuition discriminate.
  - split; [intros _; eauto | reflexivity].
  - split; [intros _; eauto | intros _; apply list_elem_of_here].
  - split; [discriminate | intros (r' & [= <-] & H); contradiction].
  - split; [intros _; eauto | intros _; apply list_elem_of_here].
  - split; [discriminate | intros (r' & [= <-] & H); contradiction].
Qed.

(** X14.  The labels and the block table that main returns do not depend
    on min_wear: that option reaches the daily summary only. *)
Theorem main_outcome_ignores_min_wear (args : Args) (m : Z)
    (data2model : list A) (times : list Z) (non_wear : list bool)
    (ssl_sleep : option (list Z)) :
  (main predict SLEEPNET_LABELS find_sleep_block_duration
     find_valid_sleep_blocks find_gaps2fill fill_gaps
     time_series2sleep_blocks start_sleep_net (with_min_wear args m)
     data2model times non_wear ssl_sleep).2
  = (main predict SLEEPNET_LABELS find_sleep_block_duration
       find_valid_sleep_blocks find_gaps2fill fill_gaps
       time_series2sleep_blocks start_sleep_net args data2model times
       non_wear ssl_sleep).2
  /\ forall ev,
       ev ∈ (main predict SLEEPNET_LABELS find_sleep_block_duration
               find_valid_sleep_blocks find_gaps2fill fill_gaps
               time_series2sleep_blocks start_sleep_net
               (with_min_wear args m) data2model times non_wear ssl_sleep).1
       -> ev = summarize_daily_sleep_call m
          \/ ev ∈ (main predict SLEEPNET_LABELS find_sleep_block_duration
                     find_valid_sleep_blocks find_gaps2fill fill_gaps
                     time_series2sleep_blocks start_sleep_net args
                     data2model times non_wear ssl_sleep).1.
Proof.
  unfold main.
  rewrite (get_sleep_windows_reads_force_run predict SLEEPNET_LABELS
             find_sleep_block_duration find_valid_sleep_blocks
             find_gaps2fill fill_gaps time_series2sleep_blocks args
             (with_min_wear args m) data2model times non_wear ssl_sleep
             eq_refl).
  destruct (get_sleep_windows _ _ _ _ _ _ _ _ _ _ _ _) as [r|e];
    [|split; [reflexivity | auto]].
  destruct (decide _); [split; [reflexivity | auto]|].
  cbn [with_min_wear outdir model_weight_path local_repo_path pytorch_device
       min_wear].
  destruct (start_sleep_net _ _ _ _ _ _) as [y_pred test_pids].
  destruct (stitch _ _ _ _ _); (split; [reflexivity|]); [|auto].
  cbn [fst]. intros ev Hev.
  apply list_elem_of_In in Hev. cbn in Hev.
  repeat (destruct Hev as [<- | Hev];
          [try (right; apply list_elem_of_In; cbn; tauto); left; reflexivity
          |]).
  contradiction.
Qed.

End runs.


Lemma main_returned_outputs_witness :
  exists r,
    demo.get_sleep_windows (demo.args false 22) [1; 1; 0; 1] [0; 30; 60; 90]
      [false; false; false; false] None = Ok r
    /\ length [Some 2; Some 2; Some 0; Some 2] = length [0; 30; 60; 90].
Proof.
  destruct (main_returned_outputs demo.predict demo.SLEEPNET_LABELS
              sw.find_sleep_block_duration sw.find_valid_sleep_blocks
              sw.find_gaps2fill sw.fill_gaps demo.time_series2sleep_blocks
              demo.start_sleep_net (demo.args false 22) [1; 1; 0; 1]
              [0; 30; 60; 90] [false; false; false; false] None
              _ [Some 2; Some 2; Some 0; Some 2] _
              ltac:(vm_compute; reflexivity))
    as (r & Hr & _ & Hlen & _).
  exists r. split; [exact Hr | exact Hlen].
Defined.

Section non_wear_epochs.

Context {A : Type}.
Variable predict : list A -> list Z.
Variable SLEEPNET_LABELS : Z -> option Z.
Context {counter_t : Type}.
Variable find_sleep_block_duration : list epoch -> counter_t.
Variable find_valid_sleep_blocks : counter_t -> Z -> list nat.
Variable find_gaps2fill : list nat -> Z -> counter_t -> list nat.
Variable fill_gaps : list epoch -> counter_t -> list nat -> list epoch.
Variable time_series2sleep_blocks :
  list epoch -> list (Z * Z) * list (Z * Z) * list Z * list Z * list Q.
Variable start_sleep_net :
  list A -> list Z -> string -> string -> string -> string
  -> list Z * list Z.

(** X15.  In a run that computes the coarse predictions and returns, the
    raw_label of an epoch that is flagged non-wear and lies in no block of
    the sleep block table is the table entry of the sentinel -1; the
    second model cannot change it. *)
Theorem main_non_wear_outside_blocks (args : Args) (data2model : list A)
    (times : list Z) (non_wear : list bool) (ssl_sleep : option (list Z))
    trace raw_label sleep_block :
  ssl_sleep = None \/ force_run args = true ->
  main predict SLEEPNET_LABELS find_sleep_block_duration
    find_valid_sleep_blocks find_gaps2fill fill_gaps time_series2sleep_blocks
    start_sleep_net args data2model times non_wear ssl_sleep
  = (trace, Returned raw_label sleep_block) ->
  forall i t,
    non_wear !! i = Some true ->
    times !! i = Some t ->
    (forall row flag, (row, flag) ∈ sleep_block -> ~ in_block row t) ->
    raw_label !! i = Some (SLEEPNET_LABELS NON_WEAR_PREDICTION_FLAG).
Proof.
  intros Hfresh Hrun i t Hi Ht Hnone.
  apply main_inv in Hrun
    as [(e' & _ & _ & [=])
       |(r & Hr & [(_ & _ & [=])
                  |(y & tp & Hne & _ &
                    [(e' & _ & _ & [=])|(so & Hst & -> & [= -> ->])])])].
  destruct (fill_sleepnet_predictions_Ok_frame _ _ _ _ _ _ _ Hst)
    as [_ Hkeep].
  rewrite (Hkeep i t Ht).
  - destruct (get_sleep_windows_inv _ _ _ _ _ _ _ _ _ _ _ _ _ Hr)
      as (d & sp & _ & Hsp & Hv & Hlen & _).
    assert (Hset : fresh_sleep_prediction times non_wear (predict d) = Ok sp).
    { destruct Hfresh as [-> | Hf]; [exact Hsp|].
      destruct ssl_sleep; [rewrite Hf in Hsp|]; exact Hsp. }
    apply vectorize_get_Ok in Hv as [_ Hby].
    unfold fresh_sleep_prediction in Hset.
    pose proof (setitem_mask_Ok_length _ _ _ _ Hset) as Hm.
    rewrite length_map, length_replicate in Hm.
    rewrite Hby, map_as_fmap, list_lookup_fmap.
    rewrite (setitem_mask_aligned_or_not_lookup_false _ _ _ _ _ Hset Hi).
    rewrite lookup_replicate_2 by (apply lookup_lt_Some in Hi; lia).
    reflexivity.
  - intros k row _ Hrow.
    apply (Hnone row (bool_decide
                        (start_end row ∈ sleep_wins_long_per_day_df r))).
    rewrite mark_longest_spec, map_as_fmap. apply list_elem_of_fmap.
    exists row. split; [reflexivity|]. apply list_elem_of_lookup. eauto.
Qed.

End non_wear_epochs.

Lemma main_non_wear_outside_blocks_witness :
  [Some 2; Some 2; Some (-1); Some 2] !! 2%nat
  = Some (demo.SLEEPNET_LABELS NON_WEAR_PREDICTION_FLAG).
Proof.
  refine (main_non_wear_outside_blocks demo.predict demo.SLEEPNET_LABELS
            sw.find_sleep_block_duration sw.find_valid_sleep_blocks
            sw.find_gaps2fill sw.fill_gaps demo.time_series2sleep_blocks
            demo.start_sleep_net (demo.args false 22) [1; 1; 0; 1]
            [0; 30; 60; 90] [false; false; true; false] None
            _ [Some 2; Some 2; Some (-1); Some 2]
            [(demo_win 0 60, true); (demo_win 90 120, false)]
            (or_introl eq_refl) _ 2%nat 60 eq_refl eq_refl _).
  - vm_compute. reflexivity.
  - intros row flag Hrow. apply list_elem_of_In in Hrow.
    destruct Hrow as [[= <- <-]|[[= <- <-]|[]]]; unfold in_block; simpl; lia.
Defined.

(** ** The marking of the longest blocks, for any per-night table *)

(** X16. Lines 416-421 of main flag a row of the block table exactly when
    its (start, end) pair occurs somewhere in the per-night table, whatever
    that table holds: the loop never clears a flag, keeps the rows and
    their order, and depends on the per-night table only through the set
    of its pairs (neither the order of its rows nor their repetition
    matters). *)
Theorem mark_longest_by_value (table : list sleep_win)
    (long_df long_df' : list (Z * Z))
    (Hsame : forall p, p ∈ long_df <-> p ∈ long_df') :
  map fst (mark_longest table long_df) = table /\
  (forall i r, table !! i = Some r ->
     mark_longest table long_df !! i
     = Some (r, bool_decide (start_end r ∈ long_df))) /\
  mark_longest table long_df' = mark_longest table long_df.
Proof.
  rewrite !mark_longest_spec. split; [|split].
  - rewrite !map_as_fmap, <- list_fmap_compose.
    rewrite <- (list_fmap_id table) at 2.
    apply list_fmap_ext. intros i r _. reflexivity.
  - intros i r Hr. rewrite map_as_fmap, list_lookup_fmap, Hr. reflexivity.
  - rewrite !map_as_fmap. apply list_fmap_ext. intros i r _. cbn.
    f_equal. apply bool_decide_ext. symmetry. apply Hsame.
Qed.

Lemma mark_longest_by_value_witness :
  let table := [demo_win 0 60; demo_win 90 120] in
  (forall p, p ∈ [(0, 60)] <-> p ∈ [(0, 60); (0, 60)]) /\
  mark_longest table [(0, 60); (0, 60)]
  = [(demo_win 0 60, true); (demo_win 90 120, false)].
Proof.
  assert (Hsame : forall p : Z * Z,
            p ∈ [(0, 60)] <-> p ∈ [(0, 60); (0, 60)]).
  { intros p. rewrite !elem_of_cons, elem_of_nil. tauto. }
  split; [exact Hsame|].
  rewrite (proj2 (proj2 (mark_longest_by_value
             [demo_win 0 60; demo_win 90 120] _ _ Hsame))).
  reflexivity.
Defined.

(** ** The time shift argument *)

Lemma numeral_nonempty n : numeral n <> EmptyString.
Proof.
  unfold numeral. destruct n as [|p]; [discriminate|]. cbn [N.to_uint].
  pose proof (DecimalPos.Unsigned.to_uint_nonnil p) as Hp.
  destruct (Pos.to_uint p); [congruence | discriminate..].
Qed.

Lemma decimal_int_numeral n : decimal_int (numeral n) = Ok (Z.of_N n).
Proof.
  unfold decimal_int. pose proof (numeral_nonempty n) as Hn.
  destruct (numeral n) eqn:E; [congruence|]. rewrite <- E.
  unfold numeral. rewrite NilEmpty.usu, DecimalN.Unsigned.of_to.
  reflexivity.
Qed.

Lemma time_shift_of_long int c c' rest :
  time_shift_of int (String c (String c' rest))
  = if Ascii.eqb c "-" then n ← int (String c' rest); Ok (- n)
    else int (String c' rest).
Proof.
  unfold time_shift_of. cbn [String.eqb].
  destruct (Ascii.eqb c "0"); reflexivity.
Qed.

Section time_shift.

Variable int : string -> result Z.

Hypothesis int_empty : int EmptyString = Raise ValueError.

Hypothesis int_numeral : forall n, int (numeral n) = Ok (Z.of_N n).

(** X17. Lines 62-67 of get_parsed_data, for an [int] that reads decimal
    numerals: [+n] gives [n] and [-n] gives [-n] hours, as the help text
    of [--time_shift] says; but the first character is only compared with
    the minus sign and then dropped, so any other character in front of a
    numeral gives the numeral's value, and an unsigned argument loses its
    first digit ([12] is a shift of 2 hours). *)
Theorem time_shift_first_character_dropped (n : N) (c : ascii)
    (Hc : c <> "-"%char) :
  time_shift_of int (String "+" (numeral n)) = Ok (Z.of_N n) /\
  time_shift_of int (String "-" (numeral n)) = Ok (- Z.of_N n) /\
  time_shift_of int (String c (numeral n)) = Ok (Z.of_N n).
Proof.
  clear int_empty.
  pose proof (numeral_nonempty n) as Hn. pose proof (int_numeral n) as Hi.
  destruct (numeral n) as [|c' rest] eqn:E; [congruence|].
  rewrite !time_shift_of_long, Hi.
  apply Ascii.eqb_neq in Hc. rewrite Hc. repeat split; reflexivity.
Qed.

(** X18. Lines 62-67 of get_parsed_data on short arguments: the empty
    string raises IndexError (at [args.time_shift[0]]), and every
    one-character argument other than [0], a single digit such as [5]
    included, raises ValueError, because [int] is given the empty rest. *)
Theorem time_shift_short_argument (c : ascii) (Hc : c <> "0"%char) :
  time_shift_of int EmptyString = Raise IndexError /\
  time_shift_of int (String c EmptyString) = Raise ValueError.
Proof.
  clear int_numeral.
  split; [reflexivity|]. unfold time_shift_of. cbn [String.eqb].
  apply Ascii.eqb_neq in Hc. rewrite Hc. cbn [negb].
  rewrite int_empty. destruct (Ascii.eqb c "-"); reflexivity.
Qed.

End time_shift.

Lemma time_shift_first_character_dropped_witness :
  time_shift_of decimal_int "+1" = Ok 1 /\
  time_shift_of decimal_int "-1" = Ok (-1) /\
  time_shift_of decimal_int "12" = Ok 2.
Proof.
  destruct (time_shift_first_character_dropped decimal_int
              decimal_int_numeral 1 "+"%char ltac:(discriminate))
    as (Hplus & Hminus & _).
  destruct (time_shift_first_character_dropped decimal_int
              decimal_int_numeral 2 "1"%char ltac:(discriminate))
    as (_ & _ & Hdigit).
  split; [exact Hplus|]. split; [exact Hminus | exact Hdigit].
Defined.

Lemma time_shift_short_argument_witness :
  time_shift_of decimal_int "5" = Raise ValueError.
Proof.
  exact (proj2 (time_shift_short_argument decimal_int eq_refl "5"%char
                  ltac:(discriminate))).
Defined.

(** ** The intermediate files *)

Section transform_properties.

Context {X A : Type}.

Variable data_long2wide :
  list X -> list Z -> list bool -> list A * list Z * list bool.

Lemma transform_data2model_input_files (data : recording X) (args : Args)
    (files : npy_files A) :
  let first := transform_data2model_input data_long2wide data args files in
  first.2 = mk_npy_files (Some first.1.1.1) (Some first.1.1.2)
              (Some first.1.2).
Proof.
  cbn zeta. unfold transform_data2model_input.
  destruct files as [[d|] [t|] [n|]];
    cbn [data2model_npy times_npy non_wear_npy];
    destruct (force_run args);
    try (destruct (data_long2wide _ _ _) as [[d' t'] n']);
    reflexivity.
Qed.

(** X19. transform_data2model_input (lines 92-143) leaves the three files
    present and holding exactly the arrays it returns; and a later call
    without [force_run] returns those arrays again and leaves the files
    as they are, whatever recording it is given and whatever
    [data_long2wide] would compute: the recording is not read. *)
Theorem transform_data2model_input_cached
    (data data' : recording X) (args args' : Args) (files : npy_files A)
    (other : list X -> list Z -> list bool -> list A * list Z * list bool)
    (Hrun : force_run args' = false) :
  let first := transform_data2model_input data_long2wide data args files in
  first.2 = mk_npy_files (Some first.1.1.1) (Some first.1.1.2)
              (Some first.1.2) /\
  transform_data2model_input other data' args' first.2 = first.
Proof.
  cbn zeta. unfold transform_data2model_input.
  destruct files as [[d|] [t|] [n|]]; cbn [data2model_npy times_npy non_wear_npy];
    destruct (force_run args);
    try (destruct (data_long2wide _ _ _) as [[d' t'] n']);
    cbn [fst snd data2model_npy times_npy non_wear_npy];
    rewrite Hrun; split; reflexivity.
Qed.

(** X20. Lines 323-342 of main with [remove_intermediate_files]: the
    removal of data2model.npy never fails, since the transformation has
    written or found the file; times.npy and non_wear.npy stay, holding
    the arrays returned; and because data2model.npy is gone, the next
    transformation computes its arrays from the recording it is given,
    with or without [force_run]. *)
Theorem main_transform_removes_cache
    (data data' : recording X) (args args' : Args) (files : npy_files A)
    (Hrm : remove_intermediate_files args = true) :
  exists arrays files',
    main_transform data_long2wide data args files = Some (arrays, files') /\
    arrays = (transform_data2model_input data_long2wide data args files).1 /\
    files' = mk_npy_files None (Some arrays.1.2) (Some arrays.2) /\
    (transform_data2model_input data_long2wide data' args' files').1
    = data_long2wide (rec_xyz data') (rec_time data') (rec_non_wear data').
Proof.
  unfold main_transform. rewrite Hrm.
  pose proof (transform_data2model_input_files data args files) as Hf.
  cbn zeta in Hf.
  destruct (transform_data2model_input data_long2wide data args files)
    as [arrays fs]. cbn [fst snd] in *. subst fs.
  cbn [remove_data2model data2model_npy times_npy non_wear_npy mbind
       option_bind].
  eexists _, _. split; [reflexivity|]. split; [reflexivity|].
  split; [reflexivity|].
  unfold transform_data2model_input. cbn [data2model_npy].
  destruct (data_long2wide _ _ _) as [[d t] n]. reflexivity.
Qed.

End transform_properties.

Lemma transform_data2model_input_cached_witness :
  let first :=
    transform_data2model_input one_row_windows
      (mk_recording [0; 30] [false; true] [7; 8]) (demo.args true 22)
      (mk_npy_files None None None) in
  first.1 = ([7; 8], [0; 30], [false; true]) /\
  transform_data2model_input (fun _ _ _ => ([], [], []))
    (mk_recording [] [] [] : recording Z) (demo.args false 22) first.2
  = first.
Proof.
  split; [reflexivity|].
  exact (proj2 (transform_data2model_input_cached one_row_windows
                  (mk_recording [0; 30] [false; true] [7; 8])
                  (mk_recording [] [] [] : recording Z)
                  (demo.args true 22)
                  (demo.args false 22) (mk_npy_files None None None)
                  (fun _ _ _ => ([], [], [])) eq_refl)).
Defined.

Lemma main_transform_removes_cache_witness :
  exists arrays files',
    main_transform one_row_windows
      (mk_recording [0; 30] [false; true] [7; 8]) (removing_args false)
      (mk_npy_files (Some [1; 2]) (Some [0; 30]) (Some [false; false]))
    = Some (arrays, files') /\
    arrays = ([1; 2], [0; 30], [false; false]) /\
    (transform_data2model_input one_row_windows
       (mk_recording [0; 30] [false; true] [7; 8]) (removing_args false)
       files').1
    = ([7; 8], [0; 30], [false; true]).
Proof.
  destruct (main_transform_removes_cache one_row_windows
              (mk_recording [0; 30] [false; true] [7; 8])
              (mk_recording [0; 30] [false; true] [7; 8])
              (removing_args false) (removing_args false)
              (mk_npy_files (Some [1; 2]) (Some [0; 30])
                 (Some [false; false])) eq_refl)
    as (arrays & files' & Hmain & Harr & _ & Hnext).
  exists arrays, files'. split; [exact Hmain|]. split; [exact Harr|].
  exact Hnext.
Defined.
